(** * Calgary 3D dashboard: query interpretation, evaluation and project restore

    A shallow embedding of the decision logic of the dashboard component
    (state hooks and the handlers [handleQuerySubmit], [handleLoadProject],
    [handleClearQuery], [handleSaveProject]) and of the unit helpers of the
    API service module.

    Conventions of the embedding.
    - A JavaScript number is an exact rational ([Q]); [NaN] is a separate
      constructor of [jsnum].  Building records arrive as JSON, which carries
      neither [NaN] nor infinities.
    - A JavaScript string is a [string] whose characters are the code units
      0 to 255 (the Latin-1 range of UTF-16); white space, [\s] and case
      mapping are those of the language on that range.  Texts with other
      code units are not represented.
    - React state is a record; a handler is a function from state to state.
      An awaited call takes its outcome as an argument; where the order of
      events around an awaited call matters, the handler is split at its
      [await]. *)

From Stdlib Require Import String Ascii List Bool ZArith NArith QArith Qround Lia.
From Stdlib Require Import DecimalString Lqa.
Import ListNotations.

Local Open Scope string_scope.

(** ** JavaScript built-ins used by the handlers *)

Module JS.

Inductive jsnum : Type :=
| NaN
| Num (q : Q).

Definition Qltb (x y : Q) : bool := negb (Qle_bool y x).

(** [x > y] and [x < y] on numbers; any comparison with [NaN] is false. *)
Definition gt (x y : jsnum) : bool :=
  match x, y with
  | Num a, Num b => Qltb b a
  | _, _ => false
  end.

Definition lt (x y : jsnum) : bool :=
  match x, y with
  | Num a, Num b => Qltb a b
  | _, _ => false
  end.

(** Truthiness of an optional numeric property: [undefined] and [0] are
    falsy. *)
Definition truthyNum (o : option Q) : bool :=
  match o with
  | Some q => negb (Qeq_bool q 0)
  | None => false
  end.

(** Truthiness of an optional string: [undefined] and [''] are falsy. *)
Definition truthyStr (o : option string) : bool :=
  match o with
  | Some s => negb (s =? "")
  | None => false
  end.

Definition isDigit (c : ascii) : bool :=
  let n := N_of_ascii c in (48 <=? n)%N && (n <=? 57)%N.

(** White space of the language ([\s], and what [trim] removes) among the
    code units below 256: tab, line feed, vertical tab, form feed, carriage
    return, space and the no-break space. *)
Definition isWhiteSpace (c : ascii) : bool :=
  let n := N_of_ascii c in
  ((9 <=? n)%N && (n <=? 13)%N) || (n =? 32)%N || (n =? 160)%N.

(** Lower case of one code unit below 256: the letters A to Z, and the
    capital letters from 192 to 222 other than the multiplication sign (215),
    move up by 32. *)
Definition lowerChar (c : ascii) : ascii :=
  let n := N_of_ascii c in
  if ((65 <=? n)%N && (n <=? 90)%N)
     || ((192 <=? n)%N && (n <=? 222)%N && negb (n =? 215)%N)
  then ascii_of_N (n + 32) else c.

(** [s.toLowerCase()] *)
Fixpoint toLowerCase (s : string) : string :=
  match s with
  | EmptyString => EmptyString
  | String c s' => String (lowerChar c) (toLowerCase s')
  end.

(** [s.includes(sub)] *)
Fixpoint includes (s sub : string) : bool :=
  String.prefix sub s ||
  match s with
  | EmptyString => false
  | String _ s' => includes s' sub
  end.

Fixpoint dropWhile (p : ascii -> bool) (s : string) : string :=
  match s with
  | EmptyString => EmptyString
  | String c s' => if p c then dropWhile p s' else s
  end.

Fixpoint rev_append (s acc : string) : string :=
  match s with
  | EmptyString => acc
  | String c s' => rev_append s' (String c acc)
  end.

Definition rev (s : string) : string := rev_append s "".

(** [s.trim()] *)
Definition trim (s : string) : string :=
  rev (dropWhile isWhiteSpace (rev (dropWhile isWhiteSpace s))).

(** [!s] for a string. *)
Definition isEmpty (s : string) : bool := s =? "".

(** *** Regular expressions

    A backtracking matcher for the fragment the two patterns of the query
    handler are written in.  Literals compare case-insensitively (both
    patterns carry the [i] flag). *)

Inductive regex : Type :=
| Lit (s : string)
| Plus (p : ascii -> bool)
| Star (p : ascii -> bool)
| Opt (r : regex)
| Seq (r1 r2 : regex)
| Alt (r1 r2 : regex)
| Group (r : regex).

Definition Captures : Type := list string.
Definition Cont : Type := string -> Captures -> option Captures.

Fixpoint matchLit (l s : string) : option string :=
  match l, s with
  | EmptyString, _ => Some s
  | String a l', String b s' =>
      if Ascii.eqb (lowerChar a) (lowerChar b) then matchLit l' s' else None
  | String _ _, EmptyString => None
  end.

(** Greedy [p*] followed by [k]: take a character when possible and give it
    back when the rest fails. *)
Fixpoint matchStar (p : ascii -> bool) (s : string) (caps : Captures)
         (k : Cont) : option Captures :=
  match s with
  | String c s' =>
      if p c then
        match matchStar p s' caps k with
        | Some r => Some r
        | None => k s caps
        end
      else k s caps
  | EmptyString => k s caps
  end.

Fixpoint take (n : nat) (s : string) : string :=
  match n, s with
  | S n', String c s' => String c (take n' s')
  | _, _ => EmptyString
  end.

Fixpoint matchRe (r : regex) (s : string) (caps : Captures) (k : Cont)
  : option Captures :=
  match r with
  | Lit l =>
      match matchLit l s with
      | Some s' => k s' caps
      | None => None
      end
  | Plus p =>
      match s with
      | String c s' => if p c then matchStar p s' caps k else None
      | EmptyString => None
      end
  | Star p => matchStar p s caps k
  | Opt r1 =>
      match matchRe r1 s caps k with
      | Some res => Some res
      | None => k s caps
      end
  | Seq r1 r2 => matchRe r1 s caps (fun s' caps' => matchRe r2 s' caps' k)
  | Alt r1 r2 =>
      match matchRe r1 s caps k with
      | Some res => Some res
      | None => matchRe r2 s caps k
      end
  | Group r1 =>
      matchRe r1 s caps
        (fun s' caps' =>
           k s' (caps' ++ [take (String.length s - String.length s') s])%list)
  end.

(** [s.match(r)] for a pattern without the [g] flag: the captures of the
    leftmost match, [None] for [null]. *)
Fixpoint exec (r : regex) (s : string) : option Captures :=
  match matchRe r s [] (fun _ caps => Some caps) with
  | Some caps => Some caps
  | None =>
      match s with
      | EmptyString => None
      | String _ s' => exec r s'
      end
  end.

Definition digitValue (c : ascii) : Z := Z.of_N (N_of_ascii c) - 48.

Fixpoint digitsValue (acc : Z) (s : string) : Z :=
  match s with
  | EmptyString => acc
  | String c s' => digitsValue (10 * acc + digitValue c) s'
  end.

(** [parseInt(s)] on a capture of [\d+]. *)
Definition parseInt (s : string) : Z := digitsValue 0 s.

Fixpoint takeWhile (p : ascii -> bool) (s : string) : string :=
  match s with
  | EmptyString => EmptyString
  | String c s' => if p c then String c (takeWhile p s') else EmptyString
  end.

(** [parseFloat(s)] on a string of digits and dots (what is left after
    [replace(/[^\d.]/g, '')]): the longest prefix [digits [. digits]] or
    [. digits]; [NaN] when that prefix has no digit. *)
Definition parseFloat (s : string) : jsnum :=
  let ip := takeWhile isDigit s in
  let fp :=
    match dropWhile isDigit s with
    | String "." r => takeWhile isDigit r
    | _ => EmptyString
    end in
  if isEmpty ip && isEmpty fp then NaN
  else Num (inject_Z (parseInt ip)
            + inject_Z (parseInt fp) / inject_Z (10 ^ Z.of_nat (String.length fp))).

(** [s.replace(/[^\d.]/g, '')] *)
Fixpoint stripNonNumeric (s : string) : string :=
  match s with
  | EmptyString => EmptyString
  | String c s' =>
      if isDigit c || Ascii.eqb c "." then String c (stripNonNumeric s')
      else stripNonNumeric s'
  end.

(** [Math.round(x)]: the nearest integer, halves upwards. *)
Definition Math_round (x : Q) : Z := Qfloor (x + (1 # 2)).

(** [Math.min(x, y)] and [Math.max(x, y)] on numbers. *)
Definition Math_min (x y : Q) : Q := if Qle_bool x y then x else y.

Definition Math_max (x y : Q) : Q := if Qle_bool x y then y else x.

Definition showInt (n : Z) : string :=
  NilZero.string_of_uint (N.to_uint (Z.to_N n)).

(** The text a template literal inserts for a number, for the numbers the
    query handler formats: non-negative, with at most two decimals. *)
Definition numberToString (x : Q) : string :=
  let h := Qfloor (x * 100) in
  let ip := (h / 100)%Z in
  let fr := (h mod 100)%Z in
  if (fr =? 0)%Z then showInt ip
  else if (fr mod 10 =? 0)%Z then showInt ip ++ "." ++ showInt (fr / 10)
  else showInt ip ++ "." ++ showInt (fr / 10) ++ showInt (fr mod 10).

End JS.

Import JS.

(** ** Unit helpers of the API service module *)

Module apiUtils.

(** [feetToMeters: (feet) => feet * 0.3048] *)
Definition feetToMeters (feet : Q) : Q := feet * 0.3048.

(** [metersToFeet: (meters) => meters / 0.3048] *)
Definition metersToFeet (meters : Q) : Q := meters / 0.3048.

(** [getBuildingColor: (type, isHighlighted = false) => ...]: red for a
    highlighted building, the same blue for every other one. *)
Definition getBuildingColor (type : string) (isHighlighted : bool) : string :=
  if isHighlighted then "#ff6b6b" else "#4A90E2".

End apiUtils.

(** ** Data model *)

(** The [properties] bag of a building record; every field is optional. *)
Module Properties.
Record t : Type := mk {
  height_m : option Q;
  height_ft : option Q;
  height : option string;
  floors : option Q;
  building_type : option string;
  land_use : option string
}.

Definition empty : t := mk None None None None None None.
End Properties.

Module Building.
Record t : Type := mk {
  id : string;
  properties : option Properties.t
}.

(** [b.properties?.field] *)
Definition prop {A : Type} (field : Properties.t -> option A) (b : t)
  : option A :=
  match properties b with
  | Some p => field p
  | None => None
  end.
End Building.

(** The [value] of a filter is a number or a string. *)
Inductive FilterValue : Type :=
| VNum (q : Q)
| VStr (s : string).

Module Filter.
Record t : Type := mk {
  attribute : string;
  operator : string;
  value : FilterValue;
  description : string
}.
End Filter.

Module Zone.
Record t : Type := mk { name : string }.
End Zone.

Module Project.
Record result : Type := mkResult {
  id : string;
  properties : option Properties.t
}.

Record t : Type := mk {
  username : string;
  name : string;
  description : string;
  target_area : string;
  total_buildings : nat;
  highlighted_count : nat;
  query_results : list result;
  filters : list Filter.t;
  query_text : string
}.
End Project.

(** The state hooks of the dashboard component that the four handlers read
    or write. *)
Module State.
Record t : Type := mk {
  selectedZone : option string;
  zoneData : option Zone.t;
  buildings : list Building.t;
  highlightedBuildings : list Building.t;
  loading : bool;
  queryText : string;
  interpretedFilter : option Filter.t;
  username : string;
  currentProject : option Project.t
}.

Definition setHighlightedBuildings (v : list Building.t) (st : t) : t :=
  mk (selectedZone st) (zoneData st) (buildings st) v (loading st)
     (queryText st) (interpretedFilter st) (username st) (currentProject st).

Definition setLoading (v : bool) (st : t) : t :=
  mk (selectedZone st) (zoneData st) (buildings st)
     (highlightedBuildings st) v (queryText st) (interpretedFilter st)
     (username st) (currentProject st).

Definition setQueryText (v : string) (st : t) : t :=
  mk (selectedZone st) (zoneData st) (buildings st)
     (highlightedBuildings st) (loading st) v (interpretedFilter st)
     (username st) (currentProject st).

Definition setInterpretedFilter (v : option Filter.t) (st : t) : t :=
  mk (selectedZone st) (zoneData st) (buildings st)
     (highlightedBuildings st) (loading st) (queryText st) v
     (username st) (currentProject st).

Definition setCurrentProject (v : option Project.t) (st : t) : t :=
  mk (selectedZone st) (zoneData st) (buildings st)
     (highlightedBuildings st) (loading st) (queryText st)
     (interpretedFilter st) (username st) v.
End State.

(** ** The dashboard component *)

Module Dashboard.

Import Building.

(** [/(\d+)\s*(?:meters?|metres?|m|feet?|ft)/i] *)
Definition heightPattern : regex :=
  Seq (Group (Plus isDigit))
    (Seq (Star isWhiteSpace)
       (Alt (Seq (Lit "meter") (Opt (Lit "s")))
          (Alt (Seq (Lit "metre") (Opt (Lit "s")))
             (Alt (Lit "m")
                (Alt (Seq (Lit "fee") (Opt (Lit "t")))
                   (Lit "ft")))))).

(** [/(\d+)\s*(?:floor|story)/i] *)
Definition floorPattern : regex :=
  Seq (Group (Plus isDigit))
    (Seq (Star isWhiteSpace) (Alt (Lit "floor") (Lit "story"))).

(** [b.properties?.building_type === t] *)
Definition hasBuildingType (t : string) (b : Building.t) : bool :=
  match prop Properties.building_type b with
  | Some x => x =? t
  | None => false
  end.

(** [b.properties?.land_use?.toLowerCase() || ''] *)
Definition landUseOf (b : Building.t) : string :=
  match prop Properties.land_use b with
  | Some s => toLowerCase s
  | None => ""
  end.

(** The height resolution of the height branch of the query handler: the
    value of [heightInMeters] after the chain of property tests, [None]
    for [null]. *)
Definition heightInMeters (b : Building.t) : option jsnum :=
  if truthyNum (prop Properties.height_m b) then
    match prop Properties.height_m b with
    | Some h => Some (Num h)
    | None => None
    end
  else if truthyNum (prop Properties.height_ft b) then
    match prop Properties.height_ft b with
    | Some f => Some (Num (f * 0.3048))
    | None => None
    end
  else if truthyStr (prop Properties.height b) then
    match prop Properties.height b with
    | Some raw =>
        let heightStr := toLowerCase raw in
        if includes heightStr "ft" || includes heightStr "feet" then
          match parseFloat (stripNonNumeric heightStr) with
          | Num ftValue => Some (Num (ftValue * 0.3048))
          | NaN => None
          end
        else if includes heightStr "m" || includes heightStr "meters"
                || includes heightStr "metres" then
          match parseFloat (stripNonNumeric heightStr) with
          | Num mValue => Some (Num mValue)
          | NaN => None
          end
        else None
    | None => None
    end
  else None.

(** The callback of [buildings.filter] in the height branch. *)
Definition heightMatches (operator : string) (heightValue : Q)
           (b : Building.t) : bool :=
  match heightInMeters b with
  | None | Some NaN => false
  | Some (Num h) =>
      if operator =? ">" then Qltb heightValue h else Qltb h heightValue
  end.

(** The callback of [buildings.filter] in the floors branch. *)
Definition floorsMatches (operator : string) (floorValue : Q)
           (b : Building.t) : bool :=
  if negb (truthyNum (prop Properties.floors b)) then false
  else
    match prop Properties.floors b with
    | Some n =>
        if operator =? ">" then Qltb floorValue n else Qltb n floorValue
    | None => false
    end.

Definition commercialMatches (b : Building.t) : bool :=
  let landUse := landUseOf b in
  includes landUse "commercial" || includes landUse "business"
  || includes landUse "office" || includes landUse "retail"
  || includes landUse "shop" || includes landUse "store".

Definition residentialMatches (b : Building.t) : bool :=
  let landUse := landUseOf b in
  includes landUse "residential" || includes landUse "home"
  || includes landUse "house" || includes landUse "apartment"
  || includes landUse "condo" || includes landUse "dwelling".

Definition mixedMatches (b : Building.t) : bool :=
  let landUse := landUseOf b in
  includes landUse "mixed" || includes landUse "multi"
  || includes landUse "combination".

(** [query.includes('under') || query.includes('below') ||
    query.includes('less than')] selects ['<'], otherwise ['>']. *)
Definition direction (query : string) : string :=
  if includes query "under" || includes query "below"
     || includes query "less than" then "<" else ">".

(** The threshold of the height branch. *)
Definition heightValueOf (query : string) : Q :=
  match exec heightPattern query with
  | Some (d :: _) =>
      let heightValue := inject_Z (parseInt d) in
      if includes query "feet" || includes query "ft" then
        inject_Z (Math_round (heightValue * 0.3048 * 100)) / 100
      else heightValue
  | _ => 50
  end.

(** The threshold of the floors branch. *)
Definition floorValueOf (query : string) : Q :=
  match exec floorPattern query with
  | Some (d :: _) => inject_Z (parseInt d)
  | _ => 5
  end.

(** The keyword cascade of the query handler on the lower-cased text: the
    pair [(filteredBuildings, filter)] it reaches. *)
Definition interpret (query : string) (buildings : list Building.t)
  : list Building.t * option Filter.t :=
  if includes query "low rise" || includes query "low-rise" then
    (filter (hasBuildingType "low_rise") buildings,
     Some (Filter.mk "building_type" "=" (VStr "low_rise")
             "Low rise buildings (2-4 floors)"))
  else if includes query "mid rise" || includes query "mid-rise"
          || includes query "medium rise" then
    (filter (hasBuildingType "mid_rise") buildings,
     Some (Filter.mk "building_type" "=" (VStr "mid_rise")
             "Mid rise buildings (5-9 floors)"))
  else if includes query "high rise" || includes query "high-rise"
          || includes query "tall" then
    (filter (hasBuildingType "high_rise") buildings,
     Some (Filter.mk "building_type" "=" (VStr "high_rise")
             "High rise buildings (10+ floors)"))
  else if includes query "single story" || includes query "single-story"
          || includes query "one story" then
    (filter (hasBuildingType "single_story") buildings,
     Some (Filter.mk "building_type" "=" (VStr "single_story")
             "Single story buildings"))
  else if includes query "height" || includes query "tall"
          || includes query "meters" || includes query "metres"
          || includes query "feet" || includes query "ft" then
    let heightValue := heightValueOf query in
    let operator := direction query in
    (filter (heightMatches operator heightValue) buildings,
     Some (Filter.mk "height_m" operator (VNum heightValue)
             ("Buildings "
              ++ (if operator =? ">" then "taller" else "shorter")
              ++ " than " ++ numberToString heightValue ++ " meters")))
  else if includes query "floor" || includes query "floors"
          || includes query "story" || includes query "stories" then
    let floorValue := floorValueOf query in
    let operator := direction query in
    (filter (floorsMatches operator floorValue) buildings,
     Some (Filter.mk "floors" operator (VNum floorValue)
             ("Buildings with "
              ++ (if operator =? ">" then "more" else "fewer")
              ++ " than " ++ numberToString floorValue ++ " floors")))
  else if includes query "commercial" || includes query "business"
          || includes query "office" || includes query "retail" then
    (filter commercialMatches buildings,
     Some (Filter.mk "land_use" "=" (VStr "commercial")
             "Commercial buildings (business, office, retail)"))
  else if includes query "residential" || includes query "home"
          || includes query "house" || includes query "apartment" then
    (filter residentialMatches buildings,
     Some (Filter.mk "land_use" "=" (VStr "residential")
             "Residential buildings (homes, apartments, condos)"))
  else if includes query "mixed use" || includes query "mixed-use"
          || includes query "mixed" then
    (filter mixedMatches buildings,
     Some (Filter.mk "land_use" "=" (VStr "mixed_use")
             "Mixed use buildings (residential + commercial)"))
  else ([], None).

(** [handleQuerySubmit]: nothing happens on a blank text; otherwise the
    text is lower-cased and interpreted, the two results are stored and
    the loading flag ends false. *)
Definition handleQuerySubmit (st : State.t) : State.t :=
  if isEmpty (trim (State.queryText st)) then st
  else
    let query := toLowerCase (State.queryText st) in
    let '(filteredBuildings, filter) := interpret query (State.buildings st) in
    State.setLoading false
      (State.setInterpretedFilter filter
         (State.setHighlightedBuildings filteredBuildings
            (State.setLoading true st))).

(** [handleClearQuery] *)
Definition handleClearQuery (st : State.t) : State.t :=
  State.setHighlightedBuildings []
    (State.setInterpretedFilter None (State.setQueryText "" st)).

(** *** Restoring a saved project *)

Section Restore.

(** The conversion that [>] and [<] apply to a string operand facing a
    number is a built-in of the language; the restore path is modelled
    for any such conversion. *)
Variable StringToNumber : string -> jsnum.

Definition toNumber (v : FilterValue) : jsnum :=
  match v with
  | VNum q => Num q
  | VStr s => StringToNumber s
  end.

(** [b.properties?.field && b.properties.field > savedFilter.value] *)
Definition propGt (field : Properties.t -> option Q) (v : FilterValue)
           (b : Building.t) : bool :=
  truthyNum (prop field b) &&
  match prop field b with
  | Some x => gt (Num x) (toNumber v)
  | None => false
  end.

(** [b.properties?.field && b.properties.field < savedFilter.value] *)
Definition propLt (field : Properties.t -> option Q) (v : FilterValue)
           (b : Building.t) : bool :=
  truthyNum (prop field b) &&
  match prop field b with
  | Some x => lt (Num x) (toNumber v)
  | None => false
  end.

(** [b.properties?.building_type === savedFilter.value] *)
Definition buildingTypeIs (v : FilterValue) (b : Building.t) : bool :=
  match prop Properties.building_type b, v with
  | Some x, VStr s => x =? s
  | _, _ => false
  end.

(** The callback of the land-use branch, after
    [filterValue = savedFilter.value.toLowerCase()]. *)
Definition landUseMatches (filterValue : string) (b : Building.t) : bool :=
  let buildingLandUse := landUseOf b in
  if filterValue =? "commercial" then
    includes buildingLandUse "commercial"
    || includes buildingLandUse "business"
    || includes buildingLandUse "office"
    || includes buildingLandUse "retail"
  else if filterValue =? "residential" then
    includes buildingLandUse "residential"
    || includes buildingLandUse "home"
    || includes buildingLandUse "house"
    || includes buildingLandUse "apartment"
  else if filterValue =? "mixed_use" then
    includes buildingLandUse "mixed"
    || includes buildingLandUse "multi"
    || includes buildingLandUse "combination"
  else buildingLandUse =? filterValue.

(** The buildings the restore path selects for a saved filter.  [None]
    stands for the exception of calling [toLowerCase] on a value that is
    not a string, which the first call of the land-use callback raises. *)
Definition applySavedFilter (savedFilter : Filter.t)
           (buildings : list Building.t) : option (list Building.t) :=
  let attribute := Filter.attribute savedFilter in
  let operator := Filter.operator savedFilter in
  let value := Filter.value savedFilter in
  if attribute =? "height_m" then
    if operator =? ">" then
      Some (filter (propGt Properties.height_m value) buildings)
    else if operator =? "<" then
      Some (filter (propLt Properties.height_m value) buildings)
    else Some []
  else if attribute =? "floors" then
    if operator =? ">" then
      Some (filter (propGt Properties.floors value) buildings)
    else if operator =? "<" then
      Some (filter (propLt Properties.floors value) buildings)
    else Some []
  else if attribute =? "building_type" then
    Some (filter (buildingTypeIs value) buildings)
  else if attribute =? "land_use" then
    match value, buildings with
    | VStr s, _ => Some (filter (landUseMatches (toLowerCase s)) buildings)
    | VNum _, [] => Some []
    | VNum _, _ :: _ => None
    end
  else Some [].

(** [handleLoadProject]: the project becomes the current one; when it
    carries a filter, the first one is stored and applied to the loaded
    buildings, and a non-empty query text is restored.  An exception
    leaves the remaining updates undone. *)
Definition handleLoadProject (project : option Project.t) (st : State.t)
  : State.t :=
  match project with
  | None => st
  | Some p =>
      let st1 := State.setCurrentProject (Some p) st in
      match Project.filters p with
      | [] => st1
      | savedFilter :: _ =>
          let st2 := State.setInterpretedFilter (Some savedFilter) st1 in
          match applySavedFilter savedFilter (State.buildings st) with
          | None => st2
          | Some filteredBuildings =>
              let st3 := State.setHighlightedBuildings filteredBuildings st2 in
              if isEmpty (Project.query_text p) then st3
              else State.setQueryText (Project.query_text p) st3
          end
      end
  end.

End Restore.

(** *** Saving a project *)

(** How the awaited [projectsAPI.saveProject] call ends. *)
Inductive outcome : Type :=
| Resolved
| Rejected.

(** [zoneData?.name || selectedZone] inside a template literal. *)
Definition zoneLabel (st : State.t) : string :=
  let zone := match State.selectedZone st with Some z => z | None => "" end in
  match State.zoneData st with
  | Some z => if isEmpty (Zone.name z) then zone else Zone.name z
  | None => zone
  end.

(** The object posted by [handleSaveProject]. *)
Definition projectData (projectName : string) (st : State.t) : Project.t :=
  Project.mk
    (State.username st)
    (if isEmpty projectName then "Analysis of " ++ zoneLabel st
     else projectName)
    ("LLM analysis of buildings in " ++ zoneLabel st)
    (match State.selectedZone st with Some z => z | None => "" end)
    (List.length (State.buildings st))
    (List.length (State.highlightedBuildings st))
    (map (fun b => Project.mkResult (Building.id b) (Building.properties b))
       (State.highlightedBuildings st))
    (match State.interpretedFilter st with
     | Some f => [f]
     | None => []
     end)
    (State.queryText st).

(** [handleSaveProject]: without a user name or a selected zone nothing
    happens; otherwise the project is posted, and only when the call
    resolves are the query text, the filter and the highlight cleared. *)
Definition handleSaveProject (saveProject : Project.t -> outcome)
           (projectName : string) (st : State.t) : State.t :=
  if isEmpty (State.username st) || negb (truthyStr (State.selectedZone st))
  then st
  else
    match saveProject (projectData projectName st) with
    | Resolved =>
        State.setHighlightedBuildings []
          (State.setInterpretedFilter None (State.setQueryText "" st))
    | Rejected => st
    end.

End Dashboard.

(** ** The rest of the dashboard component

    The state hooks [selectedBuilding] and [error], the handlers
    [handleZoneSelect] and [handleBuildingSelect], and the events of the
    page.  [handleZoneSelect] is given both as one function of the outcome
    of its awaited call and split at the [await], for the runs in which
    other events arrive while the call is in flight. *)

Module Page.

Record t : Type := mk {
  state : State.t;
  selectedBuilding : option Building.t;
  error : option string
}.

Definition setSelectedZone (v : option string) (st : State.t) : State.t :=
  State.mk v (State.zoneData st) (State.buildings st)
    (State.highlightedBuildings st) (State.loading st) (State.queryText st)
    (State.interpretedFilter st) (State.username st) (State.currentProject st).

Definition setZoneData (v : option Zone.t) (st : State.t) : State.t :=
  State.mk (State.selectedZone st) v (State.buildings st)
    (State.highlightedBuildings st) (State.loading st) (State.queryText st)
    (State.interpretedFilter st) (State.username st) (State.currentProject st).

Definition setBuildings (v : list Building.t) (st : State.t) : State.t :=
  State.mk (State.selectedZone st) (State.zoneData st) v
    (State.highlightedBuildings st) (State.loading st) (State.queryText st)
    (State.interpretedFilter st) (State.username st) (State.currentProject st).

Definition setUsername (v : string) (st : State.t) : State.t :=
  State.mk (State.selectedZone st) (State.zoneData st) (State.buildings st)
    (State.highlightedBuildings st) (State.loading st) (State.queryText st)
    (State.interpretedFilter st) v (State.currentProject st).

(** The component right after mounting. *)
Definition initial : t :=
  mk (State.mk None None [] [] false "" None "" None) None None.

(** How the awaited [buildingsAPI.getBuildingsByZone] call ends: with a
    response whose [data.buildings] may be missing, or with an error. *)
Inductive fetched : Type :=
| Loaded (buildings : option (list Building.t))
| Failed (message : string).

(** [handleZoneSelect(zoneId, zoneInfo)] *)
Definition handleZoneSelect (getBuildingsByZone : string -> fetched)
           (zoneId : option string) (zoneInfo : option Zone.t) (pg : t) : t :=
  match zoneId with
  | Some zone =>
      if isEmpty zone then
        mk (State.setHighlightedBuildings []
              (setBuildings []
                 (setZoneData None (setSelectedZone None (state pg)))))
           None (error pg)
      else
        let cleared :=
          State.setHighlightedBuildings []
            (setBuildings [] (State.setLoading true (state pg))) in
        match getBuildingsByZone zone with
        | Loaded buildings =>
            mk (State.setLoading false
                  (setBuildings
                     (match buildings with Some l => l | None => [] end)
                     (setZoneData zoneInfo
                        (setSelectedZone (Some zone) cleared))))
               None None
        | Failed message =>
            mk (State.setLoading false cleared) None
               (Some ("Failed to load buildings for zone: " ++ message))
        end
  | None =>
      mk (State.setHighlightedBuildings []
            (setBuildings []
               (setZoneData None (setSelectedZone None (state pg)))))
         None (error pg)
  end.

(** [handleBuildingSelect(building)] *)
Definition handleBuildingSelect (building : option Building.t) (pg : t) : t :=
  mk (state pg) building (error pg).

(** *** The handlers with an [await], split at it

    [handleZoneSelect] and [handleSaveProject] suspend at their awaited
    call; other events can be handled before the call settles.  What runs
    after the [await] only calls setters with the handler's own arguments,
    the response or constants. *)

(** [handleZoneSelect] up to the awaited call (all of it for an empty
    [zoneId]). *)
Definition zoneSelectStart (zoneId : option string) (pg : t) : t :=
  if truthyStr zoneId then
    mk (State.setHighlightedBuildings []
          (setBuildings [] (State.setLoading true (state pg))))
       None None
  else
    mk (State.setHighlightedBuildings []
          (setBuildings []
             (setZoneData None (setSelectedZone None (state pg)))))
       None (error pg).

(** [handleZoneSelect] from the moment the awaited call settles. *)
Definition zoneSelectSettle (zone : string) (zoneInfo : option Zone.t)
           (result : fetched) (pg : t) : t :=
  match result with
  | Loaded buildings =>
      mk (State.setLoading false
            (setBuildings
               (match buildings with Some l => l | None => [] end)
               (setZoneData zoneInfo
                  (setSelectedZone (Some zone) (state pg)))))
         (selectedBuilding pg) (error pg)
  | Failed message =>
      mk (State.setLoading false (state pg)) (selectedBuilding pg)
         (Some ("Failed to load buildings for zone: " ++ message))
  end.

(** [handleSaveProject] from the moment the awaited call settles. *)
Definition saveSettle (result : Dashboard.outcome) (st : State.t) : State.t :=
  match result with
  | Dashboard.Resolved =>
      State.setHighlightedBuildings []
        (State.setInterpretedFilter None (State.setQueryText "" st))
  | Dashboard.Rejected => st
  end.

(** A zone load in flight: the arguments of the suspended handler. *)
Record request : Type := mkRequest {
  zone : string;
  zoneInfo : option Zone.t
}.

(** The page together with the calls in flight: the zone loads, and the
    projects posted by saves. *)
Record world : Type := mkWorld {
  page : t;
  loads : list request;
  saves : list Project.t
}.

Definition start : world := mkWorld initial [] [].

(** What can happen: typing in the query box, the buttons of the query
    panel, a click on a saved project, on a zone (or on the button that
    clears the zone), on a building, setting the user name, and the
    settling of a call in flight, in any order. *)
Inductive event : Type :=
| TypeQuery (text : string)
| SubmitQuery
| ClearQuery
| LoadProject (project : option Project.t)
| SelectBuilding (building : option Building.t)
| SetUsername (name : string)
| ClickZone (zoneId : option string) (zoneInfo : option Zone.t)
| ZoneSettles (n : nat) (result : fetched)
| ClickSave (projectName : string)
| SaveSettles (n : nat) (result : Dashboard.outcome).

Definition removeNth {A : Type} (n : nat) (l : list A) : list A :=
  (firstn n l ++ skipn (S n) l)%list.

Definition onState (f : State.t -> State.t) (w : world) : world :=
  mkWorld (mk (f (state (page w))) (selectedBuilding (page w))
             (error (page w)))
    (loads w) (saves w).

Section Events.

Variable StringToNumber : string -> jsnum.

Definition step (w : world) (e : event) : world :=
  match e with
  | TypeQuery text => onState (State.setQueryText text) w
  | SubmitQuery => onState Dashboard.handleQuerySubmit w
  | ClearQuery => onState Dashboard.handleClearQuery w
  | LoadProject project =>
      onState (Dashboard.handleLoadProject StringToNumber project) w
  | SelectBuilding building =>
      mkWorld (handleBuildingSelect building (page w)) (loads w) (saves w)
  | SetUsername name => onState (setUsername name) w
  | ClickZone zoneId zoneInfo =>
      mkWorld (zoneSelectStart zoneId (page w))
        (match zoneId with
         | Some zone =>
             if isEmpty zone then loads w
             else (loads w ++ [mkRequest zone zoneInfo])%list
         | None => loads w
         end)
        (saves w)
  | ZoneSettles n result =>
      match nth_error (loads w) n with
      | Some r =>
          mkWorld (zoneSelectSettle (zone r) (zoneInfo r) result (page w))
            (removeNth n (loads w)) (saves w)
      | None => w
      end
  | ClickSave projectName =>
      let st := state (page w) in
      if isEmpty (State.username st)
         || negb (truthyStr (State.selectedZone st))
      then w
      else
        mkWorld (page w) (loads w)
          (saves w ++ [Dashboard.projectData projectName st])%list
  | SaveSettles n result =>
      match nth_error (saves w) n with
      | Some _ =>
          mkWorld (page (onState (saveSettle result) w)) (loads w)
            (removeNth n (saves w))
      | None => w
      end
  end.

Definition run (events : list event) (w : world) : world :=
  fold_left step events w.

(** No zone is clicked while a zone load is in flight. *)
Fixpoint loadsDoNotOverlap (w : world) (events : list event) : bool :=
  match events with
  | [] => true
  | e :: rest =>
      match e with
      | ClickZone (Some zone) _ =>
          (isEmpty zone || match loads w with [] => true | _ => false end)
      | _ => true
      end
      && loadsDoNotOverlap (step w e) rest
  end.

End Events.

End Page.

(** ** The 3D map component: what [createBuildings] computes per building *)

Module ThreeMap.

(** [Math.min((props.height_m || 10) * 0.1, 50)] *)
Definition scaledHeight (building : Building.t) : Q :=
  let height_m :=
    if truthyNum (Building.prop Properties.height_m building) then
      match Building.prop Properties.height_m building with
      | Some h => h
      | None => 10
      end
    else 10 in
  Math_min (height_m * 0.1) 50.

(** [Math.max(height, 20)] *)
Definition buildingHeight (building : Building.t) : Q :=
  Math_max (scaledHeight building) 20.

(** [(highlightedBuildings || []).some(hb => hb.id === building.id)] *)
Definition isHighlighted (highlightedBuildings : list Building.t)
           (building : Building.t) : bool :=
  existsb (fun hb => Building.id hb =? Building.id building)
    highlightedBuildings.

(** [props.building_type || 'unknown'] *)
Definition buildingType (building : Building.t) : string :=
  if truthyStr (Building.prop Properties.building_type building) then
    match Building.prop Properties.building_type building with
    | Some t => t
    | None => "unknown"
    end
  else "unknown".

(** The grid cell of the building at [index]: six buildings per row. *)
Definition row (index : nat) : nat := index / 6.
Definition col (index : nat) : nat := index mod 6.

(** [(col - 2.5) * 120] and [(row - 2.5) * 120] *)
Definition positionX (index : nat) : Q :=
  (inject_Z (Z.of_nat (col index)) - 2.5) * 120.

Definition positionZ (index : nat) : Q :=
  (inject_Z (Z.of_nat (row index)) - 2.5) * 120.

(** The mesh of one building, without its random width and depth. *)
Record mesh : Type := mkMesh {
  height : Q;
  color : string;
  x : Q;
  y : Q;
  z : Q;
  building : Building.t
}.

Definition createMesh (highlightedBuildings : list Building.t)
           (index : nat) (b : Building.t) : mesh :=
  mkMesh (buildingHeight b)
    (apiUtils.getBuildingColor (buildingType b)
       (isHighlighted highlightedBuildings b))
    (positionX index) (buildingHeight b / 2) (positionZ index) b.

Fixpoint createFrom (highlightedBuildings : list Building.t) (index : nat)
         (buildings : list Building.t) : list mesh :=
  match buildings with
  | [] => []
  | b :: rest =>
      createMesh highlightedBuildings index b
      :: createFrom highlightedBuildings (S index) rest
  end.

(** [createBuildings] on an initialised scene: with no building the group
    is left as it is; otherwise it is cleared and refilled, one mesh per
    building in order. *)
Definition createBuildings (buildings highlightedBuildings : list Building.t)
           (group : list mesh) : list mesh :=
  match buildings with
  | [] => group
  | _ :: _ => createFrom highlightedBuildings 0 buildings
  end.

End ThreeMap.

(** ** The earlier version of the query handler *)

Module Legacy.

(** [b.properties?.height_m && b.properties.height_m > 50] *)
Definition tallerThan50 (b : Building.t) : bool :=
  truthyNum (Building.prop Properties.height_m b) &&
  match Building.prop Properties.height_m b with
  | Some h => Qltb 50 h
  | None => false
  end.

Definition tallFilter : Filter.t :=
  Filter.mk "height_m" ">" (VNum 50) "Buildings taller than 50 meters".

(** [handleQuerySubmit] of the earlier dashboard: a text with [tall] or
    [height] highlights the buildings above 50 meters, any other text
    that is not blank clears the highlight. *)
Definition handleQuerySubmit (st : State.t) : State.t :=
  if isEmpty (trim (State.queryText st)) then st
  else
    let query := toLowerCase (State.queryText st) in
    if includes query "tall" || includes query "height" then
      State.setLoading false
        (State.setInterpretedFilter (Some tallFilter)
           (State.setHighlightedBuildings
              (filter tallerThan50 (State.buildings st))
              (State.setLoading true st)))
    else
      State.setLoading false
        (State.setInterpretedFilter None
           (State.setHighlightedBuildings [] (State.setLoading true st))).

End Legacy.

(** ** Vocabulary of the statements *)

Import Dashboard.

(** The keyword sets of the nine rules of the cascade, in the order they are
    tested. *)
Definition keywordRules : list (list string) :=
  [ ["low rise"; "low-rise"];
    ["mid rise"; "mid-rise"; "medium rise"];
    ["high rise"; "high-rise"; "tall"];
    ["single story"; "single-story"; "one story"];
    ["height"; "tall"; "meters"; "metres"; "feet"; "ft"];
    ["floor"; "floors"; "story"; "stories"];
    ["commercial"; "business"; "office"; "retail"];
    ["residential"; "home"; "house"; "apartment"];
    ["mixed use"; "mixed-use"; "mixed"] ].

Definition includesAny (text : string) (keywords : list string) : bool :=
  existsb (includes text) keywords.

(** Some rule of the cascade matches the lower-cased text. *)
Definition matchesSomeRule (query : string) : bool :=
  existsb (includesAny query) keywordRules.

(** The filter the [high_rise] rule builds. *)
Definition highRiseFilter : Filter.t :=
  Filter.mk "building_type" "=" (VStr "high_rise")
    "High rise buildings (10+ floors)".

(** A dashboard with a user, a selected zone, the given buildings and the
    given text in the query box, and nothing highlighted. *)
Definition dashboardWith (buildings : list Building.t) (text : string)
  : State.t :=
  State.mk (Some "beltline") None buildings [] false text None "ada" None.

(** A high-rise tower, and the dashboard after the user has queried for tall
    buildings and then emptied the query box. *)
Definition tower : Building.t :=
  Building.mk "tower"
    (Some (Properties.mk (Some 120) None None (Some 30) (Some "high_rise")
             (Some "Commercial"))).

Definition afterTallThenEmptied : State.t :=
  State.setQueryText "" (handleQuerySubmit (dashboardWith [tower] "tall buildings")).

(** The record [b] with its [height_m] property removed. *)
Definition withoutHeightM (b : Building.t) : Building.t :=
  Building.mk (Building.id b)
    (match Building.properties b with
     | Some p =>
         Some (Properties.mk None (Properties.height_ft p)
                 (Properties.height p) (Properties.floors p)
                 (Properties.building_type p) (Properties.land_use p))
     | None => None
     end).

(** A record with zero floors and a zero [height_m], whose height is known
    in feet only. *)
Definition groundLot : Building.t :=
  Building.mk "lot"
    (Some (Properties.mk (Some 0) (Some 80) None (Some 0) None None)).

(** A stored project whose filter names an attribute the restore path does
    not know. *)
Definition zoningProject : Project.t :=
  Project.mk "ada" "zoning study" "" "beltline" 1 1 [] 
    [Filter.mk "zoning" "=" (VStr "C-COR1") "Zoning C-COR1"] "zoning c-cor1".

(** A conversion of strings to numbers that knows no number. *)
Definition noNumber (s : string) : jsnum := NaN.

(** A record without any property. *)
Definition shed : Building.t := Building.mk "shed" (Some Properties.empty).

(** Records that differ in their land use only. *)
Definition withLandUse (name landUse : string) : Building.t :=
  Building.mk name
    (Some (Properties.mk None None None None None (Some landUse))).

Definition condoBlock : Building.t := withLandUse "condo" "Condominium".

Definition mixedBlock : Building.t :=
  withLandUse "mixed" "Mixed Residential/Retail".

(** Records that carry their height as a string only, or in feet only. *)
Definition withHeightString (name text : string) : Building.t :=
  Building.mk name
    (Some (Properties.mk None None (Some text) None None None)).

Definition withHeightFt (name : string) (feet : Q) : Building.t :=
  Building.mk name
    (Some (Properties.mk None (Some feet) None None None None)).

(** A query that states its threshold in meters and mentions feet later. *)
Definition metersThenFeet : string := "buildings over 100 meters or 300 feet".

(** A query for buildings above ten meters, over one record whose height is
    known in feet only. *)
Definition eightyFeet : Building.t := withHeightFt "annex" 80.

Definition overTenMeters : State.t :=
  dashboardWith [eightyFeet] "buildings over 10 meters".

(** The cascade as a table: the keyword set of each rule with the attribute
    of its filter and, for the rules on a category, the value. *)
Definition ruleOutcomes : list (list string * (string * option string)) :=
  combine keywordRules
    [ ("building_type", Some "low_rise");
      ("building_type", Some "mid_rise");
      ("building_type", Some "high_rise");
      ("building_type", Some "single_story");
      ("height_m", None);
      ("floors", None);
      ("land_use", Some "commercial");
      ("land_use", Some "residential");
      ("land_use", Some "mixed_use") ].

(** The first rule of the table that matches the lower-cased text. *)
Definition firstRule (query : string)
  : option (list string * (string * option string)) :=
  find (fun rule => includesAny query (fst rule)) ruleOutcomes.

(** Every character of [s] is in the class [p]. *)
Fixpoint allChars (p : ascii -> bool) (s : string) : bool :=
  match s with
  | EmptyString => true
  | String c s' => p c && allChars p s'
  end.

(** A stored project whose land-use filter carries a number as its value. *)
Definition numericLandUseProject : Project.t :=
  Project.mk "ada" "odd" "" "beltline" 1 0 []
    [Filter.mk "land_use" "=" (VNum 3) "Land use 3"] "land use three".

(** The highlighted list is a selection of the loaded buildings, in their
    order. *)
Definition highlightIsSelection (st : State.t) : Prop :=
  exists p, State.highlightedBuildings st = filter p (State.buildings st).

(** A page with a zone loaded and a query answered, and a zone service that
    is down. *)
Definition pageAfterQuery : Page.t :=
  Page.mk (handleQuerySubmit (dashboardWith [tower; shed] "tall buildings"))
    (Some tower) None.

Definition serviceDown (zone : string) : Page.fetched :=
  Page.Failed "Network Error".

(** Records that carry [height_m] only. *)
Definition withHeightM (name : string) (meters : Q) : Building.t :=
  Building.mk name
    (Some (Properties.mk (Some meters) None None None None None)).

(** The characters that [replace(/[^\d.]/g, '')] keeps: digits and the
    point. *)
Definition isNumericChar (c : ascii) : bool := isDigit c || Ascii.eqb c ".".

Definition notNumericChar (c : ascii) : bool := negb (isNumericChar c).

(** Two zone clicks in a row, the first load answered, a query, then the
    second load answered. *)
Definition overlappedLoads : list Page.event :=
  [ Page.ClickZone (Some "stephen-avenue") None;
    Page.ClickZone (Some "east-village") None;
    Page.ZoneSettles 0 (Page.Loaded (Some [tower]));
    Page.TypeQuery "tall buildings";
    Page.SubmitQuery;
    Page.ZoneSettles 0 (Page.Loaded (Some [shed])) ].

(** A zone click, a project loaded and a text typed while the load is in
    flight, the load answered, a query, a save, a query while the save is
    in flight, and the save answered. *)
Definition busySession : list Page.event :=
  [ Page.SetUsername "ada";
    Page.ClickZone (Some "stephen-avenue") None;
    Page.LoadProject (Some zoningProject);
    Page.TypeQuery "tall buildings";
    Page.ZoneSettles 0 (Page.Loaded (Some [tower; shed]));
    Page.SubmitQuery;
    Page.ClickSave "towers";
    Page.SubmitQuery;
    Page.SaveSettles 0 Resolved;
    Page.TypeQuery "tall";
    Page.SubmitQuery ].

(** What holds of the page and its calls in flight as long as zone loads do
    not overlap: the highlight is a selection of the loaded buildings, at
    most one load is in flight, and while it is, no building is loaded. *)
Definition loadInvariant (w : Page.world) : Prop :=
  highlightIsSelection (Page.state (Page.page w))
  /\ (List.length (Page.loads w) <= 1)%nat
  /\ (Page.loads w <> [] -> State.buildings (Page.state (Page.page w)) = []).

(** ** Helper lemmas *)

Ltac split_orb :=
  repeat match goal with
         | H : (_ || _) = false |- _ =>
             apply orb_false_iff in H; destruct H
         end.

Ltac rewrite_includes :=
  repeat match goal with
         | H : includes _ _ = false |- _ => rewrite ?H; clear H
         end.

Section StringFacts.

Variable p : ascii -> bool.

Lemma dropWhile_cons_nonempty (c : ascii) (s : string) :
  dropWhile p s <> "" -> dropWhile p (String c s) <> "".
Proof.
  intros H. simpl. destruct (p c); [exact H | discriminate].
Qed.

Lemma dropWhile_rev_append (a acc : string) :
  dropWhile p acc <> "" -> dropWhile p (rev_append a acc) <> "".
Proof.
  revert acc. induction a as [| d a IH]; intros acc H; simpl.
  - exact H.
  - apply IH. now apply dropWhile_cons_nonempty.
Qed.

Lemma rev_append_empty (a acc : string) :
  rev_append a acc = "" -> a = "" /\ acc = "".
Proof.
  revert acc. induction a as [| d a IH]; intros acc H; simpl in H.
  - now split.
  - apply IH in H. destruct H as [_ H]. discriminate.
Qed.

Lemma dropWhile_head (s : string) :
  dropWhile p s = "" \/ exists c t, dropWhile p s = String c t /\ p c = false.
Proof.
  induction s as [| c s IH]; simpl.
  - now left.
  - destruct (p c) eqn:E; [exact IH |]. right. now exists c, s.
Qed.

Lemma includes_dropWhile (s : string) (c : ascii) (k : string) :
  includes s (String c k) = true -> p c = false -> dropWhile p s <> "".
Proof.
  intros H Hc. induction s as [| a s IH]; simpl in H.
  - discriminate.
  - simpl. destruct (ascii_dec c a) as [<- |].
    + rewrite Hc. discriminate.
    + simpl in H. destruct (p a); [now apply IH | discriminate].
Qed.

End StringFacts.

Lemma isWhiteSpace_lowerChar (c : ascii) :
  isWhiteSpace (lowerChar c) = isWhiteSpace c.
Proof.
  destruct c as [[] [] [] [] [] [] [] []]; reflexivity.
Qed.

Lemma dropWhile_toLowerCase (s : string) :
  dropWhile isWhiteSpace (toLowerCase s)
  = toLowerCase (dropWhile isWhiteSpace s).
Proof.
  induction s as [| c s IH]; simpl; [reflexivity |].
  rewrite isWhiteSpace_lowerChar. now destruct (isWhiteSpace c).
Qed.

Lemma trim_empty (s : string) :
  trim s = "" -> dropWhile isWhiteSpace s = "".
Proof.
  unfold trim, rev. intros H.
  apply rev_append_empty in H. destruct H as [H _].
  destruct (dropWhile_head isWhiteSpace s) as [E | (c & t & E & Hc)];
    [exact E |].
  exfalso. revert H. rewrite E. simpl.
  apply dropWhile_rev_append. simpl. rewrite Hc. discriminate.
Qed.

(** A text whose lower-cased form contains a keyword that starts with a
    visible character is not blank. *)
Lemma keyword_not_blank (text : string) (c : ascii) (k : string) :
  includes (toLowerCase text) (String c k) = true ->
  isWhiteSpace c = false ->
  isEmpty (trim text) = false.
Proof.
  intros H Hc. unfold isEmpty.
  destruct (String.eqb_spec (trim text) "") as [E |]; [| reflexivity].
  exfalso. apply trim_empty in E.
  apply (includes_dropWhile isWhiteSpace) in H; [| exact Hc].
  apply H. rewrite dropWhile_toLowerCase, E. reflexivity.
Qed.

Lemma handleQuerySubmit_blank (st : State.t) :
  isEmpty (trim (State.queryText st)) = true -> handleQuerySubmit st = st.
Proof.
  unfold handleQuerySubmit. now intros ->.
Qed.

Lemma handleQuerySubmit_filter (st : State.t) :
  isEmpty (trim (State.queryText st)) = false ->
  State.interpretedFilter (handleQuerySubmit st)
  = snd (interpret (toLowerCase (State.queryText st)) (State.buildings st)).
Proof.
  unfold handleQuerySubmit. intros ->.
  now destruct (interpret _ _).
Qed.

Lemma handleQuerySubmit_highlighted (st : State.t) :
  isEmpty (trim (State.queryText st)) = false ->
  State.highlightedBuildings (handleQuerySubmit st)
  = fst (interpret (toLowerCase (State.queryText st)) (State.buildings st)).
Proof.
  unfold handleQuerySubmit. intros ->.
  now destruct (interpret _ _).
Qed.

Lemma handleQuerySubmit_buildings (st : State.t) :
  State.buildings (handleQuerySubmit st) = State.buildings st.
Proof.
  unfold handleQuerySubmit.
  destruct (isEmpty _); [reflexivity |]. now destruct (interpret _ _).
Qed.

(** ** Properties *)

(** C2, as stated, fails: a text that contains [tall] and also a keyword of
    an earlier rule ([low rise]) gets the filter of that earlier rule. *)
Lemma C2_tall_after_low_rise :
  ~ (forall st : State.t,
       includes (toLowerCase (State.queryText st)) "tall" = true ->
       exists f,
         State.interpretedFilter (handleQuerySubmit st) = Some f
         /\ Filter.attribute f = "building_type"
         /\ Filter.operator f = "="
         /\ Filter.value f = VStr "high_rise").
Proof.
  intros H.
  destruct (H (dashboardWith [] "tall low rise buildings") eq_refl)
    as (f & Hf & _ & _ & Hv).
  vm_compute in Hf. injection Hf as <-. discriminate Hv.
Qed.

(** C2 (amended): every query whose lower-cased text contains [tall] and none
    of the keywords of the two earlier rules ([low rise], [low-rise],
    [mid rise], [mid-rise], [medium rise]) is interpreted as the filter
    [{attribute: building_type, operator: '=', value: high_rise}], never as a
    height filter, and the buildings of type [high_rise] are highlighted. *)
Theorem C2_tall_is_high_rise (st : State.t) :
  includes (toLowerCase (State.queryText st)) "tall" = true ->
  includesAny (toLowerCase (State.queryText st))
    ["low rise"; "low-rise"; "mid rise"; "mid-rise"; "medium rise"] = false ->
  State.interpretedFilter (handleQuerySubmit st) = Some highRiseFilter
  /\ State.highlightedBuildings (handleQuerySubmit st)
     = filter (hasBuildingType "high_rise") (State.buildings st).
Proof.
  intros Htall Hearlier.
  assert (Hnb : isEmpty (trim (State.queryText st)) = false)
    by (eapply keyword_not_blank; [exact Htall | reflexivity]).
  rewrite handleQuerySubmit_filter, handleQuerySubmit_highlighted by exact Hnb.
  unfold includesAny in Hearlier. simpl in Hearlier.
  rewrite orb_false_r in Hearlier.
  repeat (apply orb_false_iff in Hearlier;
          destruct Hearlier as [?H Hearlier]).
  unfold interpret. rewrite H, H0, H1, H2, Hearlier, Htall.
  simpl. rewrite orb_true_r. split; reflexivity.
Qed.

(** The query of the specification, "show buildings over 100 feet tall",
    is such a query. *)
Lemma C2_tall_is_high_rise_witness :
  let st := dashboardWith [] "show buildings over 100 feet tall" in
  includes (toLowerCase (State.queryText st)) "tall" = true
  /\ includesAny (toLowerCase (State.queryText st))
       ["low rise"; "low-rise"; "mid rise"; "mid-rise"; "medium rise"] = false
  /\ State.interpretedFilter (handleQuerySubmit st) = Some highRiseFilter.
Proof.
  intros st. split; [reflexivity |]. split; [reflexivity |].
  apply (C2_tall_is_high_rise st); reflexivity.
Defined.

(** A text made of white space only, the no-break space included, is blank:
    submitting it changes nothing. *)
Lemma white_space_query_is_skipped (st : State.t) :
  State.queryText st = String (ascii_of_N 160) (String (ascii_of_N 9) " ") ->
  handleQuerySubmit st = st.
Proof.
  intros H. apply handleQuerySubmit_blank. now rewrite H.
Qed.

(** C7, as stated, fails: a blank text matches no rule, and submitting it
    leaves the filter and the highlight of the previous query in place. *)
Lemma C7_blank_keeps_previous_filter :
  ~ (forall st : State.t,
       matchesSomeRule (toLowerCase (State.queryText st)) = false ->
       State.interpretedFilter (handleQuerySubmit st) = None
       /\ State.highlightedBuildings (handleQuerySubmit st) = []).
Proof.
  intros H.
  destruct (H afterTallThenEmptied eq_refl) as [Hf _].
  vm_compute in Hf. discriminate Hf.
Qed.

(** C7 (amended): for every submitted query that is not blank and whose
    lower-cased text matches none of the keyword rules, interpretation
    stores no filter ([null]) and an empty highlighted subset; the handler
    is a total function, so no error is raised. *)
Theorem C7_unclassifiable_query (st : State.t) :
  isEmpty (trim (State.queryText st)) = false ->
  matchesSomeRule (toLowerCase (State.queryText st)) = false ->
  State.interpretedFilter (handleQuerySubmit st) = None
  /\ State.highlightedBuildings (handleQuerySubmit st) = [].
Proof.
  intros Hnb Hnone.
  rewrite handleQuerySubmit_filter, handleQuerySubmit_highlighted by exact Hnb.
  unfold matchesSomeRule, includesAny in Hnone. simpl in Hnone.
  split_orb. unfold interpret. rewrite_includes. split; reflexivity.
Qed.

Lemma C7_unclassifiable_query_witness :
  let st := State.setQueryText "hello there" afterTallThenEmptied in
  State.interpretedFilter st = Some highRiseFilter
  /\ State.interpretedFilter (handleQuerySubmit st) = None
  /\ State.highlightedBuildings (handleQuerySubmit st) = [].
Proof.
  intros st. split; [reflexivity |].
  apply (C7_unclassifiable_query st); reflexivity.
Defined.

(** C10: once the save call has resolved, the query text is the empty
    string, the interpreted filter is [null] and the highlighted subset is
    empty; when the save call is rejected, the three are what they were
    before (the handler changes nothing at all). *)
Theorem C10_save_clears_on_success_only
        (saveProject : Project.t -> outcome) (projectName : string)
        (st : State.t) :
  isEmpty (State.username st) = false ->
  truthyStr (State.selectedZone st) = true ->
  let st' := handleSaveProject saveProject projectName st in
  (saveProject (projectData projectName st) = Resolved ->
   State.queryText st' = ""
   /\ State.interpretedFilter st' = None
   /\ State.highlightedBuildings st' = [])
  /\ (saveProject (projectData projectName st) = Rejected ->
      State.queryText st' = State.queryText st
      /\ State.interpretedFilter st' = State.interpretedFilter st
      /\ State.highlightedBuildings st' = State.highlightedBuildings st
      /\ st' = st).
Proof.
  intros Hu Hz st'. subst st'. unfold handleSaveProject.
  rewrite Hu, Hz. simpl.
  split; intros ->; repeat split; reflexivity.
Qed.

Lemma C10_save_clears_on_success_only_witness :
  let st := handleQuerySubmit (dashboardWith [tower] "tall buildings") in
  State.interpretedFilter st = Some highRiseFilter
  /\ State.highlightedBuildings st = [tower]
  /\ State.interpretedFilter
       (handleSaveProject (fun _ => Resolved) "towers" st) = None
  /\ State.highlightedBuildings
       (handleSaveProject (fun _ => Resolved) "towers" st) = []
  /\ State.queryText (handleSaveProject (fun _ => Resolved) "towers" st) = ""
  /\ handleSaveProject (fun _ => Rejected) "towers" st = st.
Proof.
  intros st.
  destruct (C10_save_clears_on_success_only
              (fun _ => Resolved) "towers" st eq_refl eq_refl) as [Hok _].
  destruct (Hok eq_refl) as (Hq & Hf & Hh).
  destruct (C10_save_clears_on_success_only
              (fun _ => Rejected) "towers" st eq_refl eq_refl) as [_ Hko].
  destruct (Hko eq_refl) as (_ & _ & _ & Hsame).
  repeat split; try reflexivity; assumption.
Defined.

(** C8: when the first filter of a loaded project names an attribute other
    than [building_type], [height_m], [floors] and [land_use], restoring it
    raises nothing and leaves the highlighted subset empty. *)
Theorem C8_unknown_attribute_restores_nothing
        (StringToNumber : string -> jsnum) (project : Project.t)
        (st : State.t) (f : Filter.t) (rest : list Filter.t) :
  Project.filters project = f :: rest ->
  ~ In (Filter.attribute f) ["building_type"; "height_m"; "floors"; "land_use"] ->
  applySavedFilter StringToNumber f (State.buildings st) = Some []
  /\ State.highlightedBuildings
       (handleLoadProject StringToNumber (Some project) st) = []
  /\ State.interpretedFilter
       (handleLoadProject StringToNumber (Some project) st) = Some f.
Proof.
  intros Hf Hun.
  assert (Hap : applySavedFilter StringToNumber f (State.buildings st) = Some []).
  { unfold applySavedFilter.
    repeat match goal with
           | |- context [Filter.attribute f =? ?a] =>
               destruct (String.eqb_spec (Filter.attribute f) a) as [E |];
               [exfalso; apply Hun; rewrite E; simpl; tauto |]
           end.
    reflexivity. }
  split; [exact Hap |].
  unfold handleLoadProject. rewrite Hf, Hap.
  destruct (isEmpty (Project.query_text project)); split; reflexivity.
Qed.

Lemma C8_unknown_attribute_restores_nothing_witness :
  let st := handleQuerySubmit (dashboardWith [tower] "tall buildings") in
  State.highlightedBuildings st = [tower]
  /\ State.highlightedBuildings
       (handleLoadProject noNumber (Some zoningProject) st) = [].
Proof.
  intros st. split; [reflexivity |].
  refine (proj1 (proj2 (C8_unknown_attribute_restores_nothing
                          noNumber zoningProject st _ _ eq_refl _))).
  simpl. intros [H | [H | [H | [H | []]]]]; discriminate H.
Defined.

Lemma truthyNum_zero (o : option Q) (z : Q) :
  o = Some z -> z == 0 -> truthyNum o = false.
Proof.
  intros -> Hz. simpl. apply Qeq_bool_iff in Hz. now rewrite Hz.
Qed.

(** Whatever the query, a floors filter produced by the cascade comes with
    the highlight of the floors callback. *)
Lemma interpret_floors (query : string) (buildings : list Building.t)
      (f : Filter.t) :
  snd (interpret query buildings) = Some f ->
  Filter.attribute f = "floors" ->
  fst (interpret query buildings)
  = filter (floorsMatches (direction query) (floorValueOf query)) buildings
  /\ Filter.operator f = direction query
  /\ Filter.value f = VNum (floorValueOf query).
Proof.
  unfold interpret.
  repeat match goal with
         | |- context [if ?c then _ else _] =>
             lazymatch c with
             | context [includes query _] => destruct c
             end
         end; simpl; intros Hf Ha;
    try discriminate Hf; injection Hf as <-; try discriminate Ha.
  repeat split; reflexivity.
Qed.

(** C9: a record whose [floors] property is zero is excluded by every floors
    filter, on the query path (any direction, any threshold, hence also by
    "fewer than v" with v positive) and on the restore path (any operator and
    value); and a zero [height_m] is passed over by the height resolution,
    which goes on to [height_ft] and the [height] string as if [height_m]
    were absent. *)
Theorem C9_zero_is_unresolved (b : Building.t) (z : Q) :
  z == 0 ->
  (Building.prop Properties.floors b = Some z ->
   (forall operator floorValue, floorsMatches operator floorValue b = false)
   /\ (forall query buildings f,
          snd (interpret query buildings) = Some f ->
          Filter.attribute f = "floors" ->
          ~ In b (fst (interpret query buildings)))
   /\ (forall StringToNumber f buildings restored,
          Filter.attribute f = "floors" ->
          applySavedFilter StringToNumber f buildings = Some restored ->
          ~ In b restored))
  /\ (Building.prop Properties.height_m b = Some z ->
      heightInMeters b = heightInMeters (withoutHeightM b)).
Proof.
  intros Hz. split.
  - intros Hfl.
    assert (Hcb : forall operator floorValue,
               floorsMatches operator floorValue b = false).
    { intros operator floorValue. unfold floorsMatches.
      now rewrite (truthyNum_zero _ z Hfl Hz). }
    split; [exact Hcb |]. split.
    + intros query buildings f Hf Ha Hin.
      destruct (interpret_floors query buildings f Hf Ha) as [E _].
      rewrite E in Hin. apply filter_In in Hin. destruct Hin as [_ Hin].
      rewrite Hcb in Hin. discriminate Hin.
    + intros StringToNumber f buildings restored Ha Hap Hin.
      unfold applySavedFilter in Hap. rewrite Ha in Hap. simpl in Hap.
      assert (Hgt : propGt StringToNumber Properties.floors (Filter.value f) b = false)
        by (unfold propGt; now rewrite (truthyNum_zero _ z Hfl Hz)).
      assert (Hlt : propLt StringToNumber Properties.floors (Filter.value f) b = false)
        by (unfold propLt; now rewrite (truthyNum_zero _ z Hfl Hz)).
      destruct (Filter.operator f =? ">");
        [| destruct (Filter.operator f =? "<")];
        injection Hap as <-;
        try (apply filter_In in Hin; destruct Hin as [_ Hin]; congruence).
      exact Hin.
  - intros Hm. unfold heightInMeters.
    rewrite (truthyNum_zero _ z Hm Hz).
    unfold withoutHeightM, Building.prop in *. simpl.
    destruct (Building.properties b) as [p |]; [| discriminate Hm].
    reflexivity.
Qed.

Lemma C9_zero_is_unresolved_witness :
  Building.prop Properties.floors groundLot = Some 0
  /\ Building.prop Properties.height_m groundLot = Some 0
  /\ floorsMatches "<" 5 groundLot = false
  /\ ~ In groundLot
       (fst (interpret "buildings with fewer floors, under 5 floors"
               [groundLot; tower]))
  /\ heightInMeters groundLot = heightInMeters (withoutHeightM groundLot)
  /\ heightInMeters groundLot = Some (Num (80 * 0.3048)).
Proof.
  destruct (C9_zero_is_unresolved groundLot 0 (Qeq_refl 0)) as [Hfl Hh].
  destruct (Hfl eq_refl) as (Hcb & Hq & _).
  split; [reflexivity |]. split; [reflexivity |].
  split; [apply Hcb |].
  split; [eapply Hq; reflexivity |].
  split; [apply Hh; reflexivity | reflexivity].
Defined.

(** *** The matcher hands its continuation the captures it was given,
    extended *)

Lemma matchStar_inv (p : ascii -> bool) (s : string) (caps : Captures)
      (k : Cont) (res : Captures) :
  matchStar p s caps k = Some res -> exists s', k s' caps = Some res.
Proof.
  induction s as [| c s IH]; simpl; intros H.
  - now exists "".
  - destruct (p c).
    + destruct (matchStar p s caps k) as [r |] eqn:E.
      * injection H as <-. now apply IH.
      * now exists (String c s).
    + now exists (String c s).
Qed.

Lemma matchRe_inv (r : regex) :
  forall (s : string) (caps : Captures) (k : Cont) (res : Captures),
    matchRe r s caps k = Some res ->
    exists s' ext, k s' (caps ++ ext)%list = Some res.
Proof.
  induction r as [l | p | p | r IH | r1 IH1 r2 IH2 | r1 IH1 r2 IH2 | r IH];
    intros s caps k res H; simpl in H.
  - destruct (matchLit l s) as [s' |]; [| discriminate H].
    exists s', []. now rewrite app_nil_r.
  - destruct s as [| c s]; [discriminate H |].
    destruct (p c); [| discriminate H].
    apply matchStar_inv in H. destruct H as [s' H].
    exists s', []. now rewrite app_nil_r.
  - apply matchStar_inv in H. destruct H as [s' H].
    exists s', []. now rewrite app_nil_r.
  - destruct (matchRe r s caps k) as [x |] eqn:E.
    + injection H as <-. now apply IH in E.
    + exists s, []. now rewrite app_nil_r.
  - apply IH1 in H. destruct H as (s1 & e1 & H).
    apply IH2 in H. destruct H as (s2 & e2 & H).
    exists s2, (e1 ++ e2)%list. now rewrite app_assoc.
  - destruct (matchRe r1 s caps k) as [x |] eqn:E.
    + injection H as <-. now apply IH1 in E.
    + now apply IH2 in H.
  - apply IH in H. destruct H as (s1 & e1 & H).
    eexists s1, (e1 ++ [_])%list. rewrite app_assoc. exact H.
Qed.

(** A pattern that opens with a group reports at least one capture. *)
Lemma exec_group_first (g rest : regex) (s : string) (caps : Captures) :
  exec (Seq (Group g) rest) s = Some caps -> exists d more, caps = d :: more.
Proof.
  induction s as [| c s IH]; simpl; intros H.
  - destruct (matchRe g "" [] _) as [x |] eqn:E; [| discriminate H].
    injection H as <-.
    apply matchRe_inv in E. destruct E as (s1 & e1 & E).
    apply matchRe_inv in E. destruct E as (s2 & e2 & E).
    injection E as <-. simpl. destruct e1; simpl; eauto.
  - destruct (matchRe g (String c s) [] _) as [x |] eqn:E.
    + injection H as <-.
      apply matchRe_inv in E. destruct E as (s1 & e1 & E).
      apply matchRe_inv in E. destruct E as (s2 & e2 & E).
      injection E as <-. simpl. destruct e1; simpl; eauto.
    + now apply IH.
Qed.

Lemma Qltb_lt (x y : Q) : Qltb x y = true <-> x < y.
Proof.
  unfold Qltb. rewrite negb_true_iff. split.
  - intros H. apply Qnot_le_lt. intros Hle.
    apply Qle_bool_iff in Hle. congruence.
  - intros H. destruct (Qle_bool y x) eqn:E; [| reflexivity].
    apply Qle_bool_iff in E. exfalso. exact (Qlt_not_le _ _ H E).
Qed.



(** C5, as stated, fails: the residential query also selects a record whose
    land use contains [condo] and none of the four keywords. *)
Lemma C5_condo_is_selected :
  ~ (forall buildings b,
       In b (State.highlightedBuildings
               (handleQuerySubmit
                  (dashboardWith buildings "show residential buildings")))
       <-> In b buildings
           /\ includesAny (landUseOf b)
                ["residential"; "home"; "house"; "apartment"] = true).
Proof.
  intros H.
  destruct (H [condoBlock] condoBlock) as [Hsel _].
  assert (Hin : In condoBlock
                  (State.highlightedBuildings
                     (handleQuerySubmit
                        (dashboardWith [condoBlock]
                           "show residential buildings"))))
    by (left; reflexivity).
  apply Hsel in Hin. destruct Hin as [_ Hkw]. discriminate Hkw.
Qed.

(** C5 (amended): the query "show residential buildings" is interpreted as
    the filter [{attribute: land_use, operator: '=', value: residential}] and
    highlights, in order, exactly the records whose lower-cased [land_use]
    (the empty string when absent) contains one of [residential], [home],
    [house], [apartment], [condo] or [dwelling]; a record with land use
    "Mixed Residential/Retail" is among them. *)
Theorem C5_residential_selection (buildings : list Building.t) :
  let st :=
    handleQuerySubmit (dashboardWith buildings "show residential buildings") in
  (exists description,
      State.interpretedFilter st
      = Some (Filter.mk "land_use" "=" (VStr "residential") description))
  /\ State.highlightedBuildings st
     = filter
         (fun b =>
            includesAny (landUseOf b)
              ["residential"; "home"; "house"; "apartment"; "condo";
               "dwelling"])
         buildings
  /\ (forall b,
         In b (State.highlightedBuildings st)
         <-> In b buildings
             /\ includesAny (landUseOf b)
                  ["residential"; "home"; "house"; "apartment"; "condo";
                   "dwelling"] = true)
  /\ (forall b,
         In b buildings ->
         Building.prop Properties.land_use b = Some "Mixed Residential/Retail" ->
         In b (State.highlightedBuildings st)).
Proof.
  intros st.
  assert (Hh : State.highlightedBuildings st
               = filter
                   (fun b =>
                      includesAny (landUseOf b)
                        ["residential"; "home"; "house"; "apartment"; "condo";
                         "dwelling"])
                   buildings).
  { change (State.highlightedBuildings st)
      with (filter residentialMatches buildings).
    apply filter_ext. intros b. unfold residentialMatches, includesAny.
    simpl. rewrite orb_false_r. now rewrite !orb_assoc. }
  assert (Hiff : forall b,
             In b (State.highlightedBuildings st)
             <-> In b buildings
                 /\ includesAny (landUseOf b)
                      ["residential"; "home"; "house"; "apartment"; "condo";
                       "dwelling"] = true)
    by (intros b; rewrite Hh; apply filter_In).
  split; [eexists; reflexivity |]. split; [exact Hh |].
  split; [exact Hiff |].
  intros b Hb Hl. apply Hiff. split; [exact Hb |].
  unfold landUseOf. rewrite Hl. reflexivity.
Qed.

Lemma C5_residential_selection_witness :
  let buildings := [tower; mixedBlock; shed; condoBlock] in
  let st :=
    handleQuerySubmit (dashboardWith buildings "show residential buildings") in
  In mixedBlock (State.highlightedBuildings st)
  /\ State.highlightedBuildings st = [mixedBlock; condoBlock].
Proof.
  intros buildings st.
  destruct (C5_residential_selection buildings) as (_ & Hh & _ & Hmixed).
  split; [apply Hmixed; [right; left; reflexivity | reflexivity] |].
  exact Hh.
Defined.

(** A text that contains a word contains its first letter. *)
Lemma includes_first_char (s : string) (c : ascii) (k : string) :
  includes s (String c k) = true -> includes s (String c "") = true.
Proof.
  induction s as [| a s IH]; simpl; intros H.
  - discriminate H.
  - destruct (ascii_dec c a); [now destruct s |].
    simpl in *. now apply IH.
Qed.

Lemma truthyNum_nonzero (o : option Q) (x : Q) :
  o = Some x -> ~ x == 0 -> truthyNum o = true.
Proof.
  intros -> Hx. simpl. destruct (Qeq_bool x 0) eqn:E; [| reflexivity].
  apply Qeq_bool_iff in E. contradiction.
Qed.

(** Stripping keeps exactly the digits and points of the text, in order. *)
Lemma stripNonNumeric_filter (s : string) :
  stripNonNumeric s
  = string_of_list_ascii (filter isNumericChar (list_ascii_of_string s)).
Proof.
  induction s as [| c s IH]; [reflexivity |].
  cbn [stripNonNumeric list_ascii_of_string filter]. unfold isNumericChar at 1.
  destruct (isDigit c || Ascii.eqb c "."); cbn [string_of_list_ascii];
    now rewrite IH.
Qed.

Lemma stripNonNumeric_app (a b : string) :
  stripNonNumeric (a ++ b) = stripNonNumeric a ++ stripNonNumeric b.
Proof.
  induction a as [| c a IH]; [reflexivity |].
  cbn [append stripNonNumeric].
  destruct (isDigit c || Ascii.eqb c "."); cbn [append]; now rewrite IH.
Qed.

Lemma stripNonNumeric_numeric (s : string) :
  allChars isNumericChar s = true -> stripNonNumeric s = s.
Proof.
  induction s as [| c s IH]; [reflexivity |].
  cbn [allChars stripNonNumeric]. unfold isNumericChar at 1.
  intros H. apply andb_true_iff in H. destruct H as [-> H].
  now rewrite IH.
Qed.

Lemma stripNonNumeric_other (s : string) :
  allChars notNumericChar s = true -> stripNonNumeric s = "".
Proof.
  induction s as [| c s IH]; [reflexivity |].
  cbn [allChars stripNonNumeric]. unfold notNumericChar at 1, isNumericChar.
  intros H. apply andb_true_iff in H. destruct H as [Hc H].
  apply negb_true_iff in Hc. rewrite Hc. now apply IH.
Qed.

Lemma append_empty_r (s : string) : s ++ "" = s.
Proof.
  induction s as [| c s IH]; [reflexivity |]. cbn [append]. now rewrite IH.
Qed.

(** C4: the height callback of the query path resolves a record's height in
    meters by a chain: a usable [height_m] is taken as it is; failing that a
    usable [height_ft] is converted by [feetToMeters]; failing that a
    non-empty [height] string is lower-cased, its unit found by substring
    ([ft] or [feet], else [m]), its characters other than digits and dots
    removed (what is parsed is exactly the digits and dots of the text, in
    their order, wherever the other characters stand), the rest parsed and
    converted when the unit is feet; otherwise
    the record is unresolved, and an unresolved record matches no height
    filter.  For "find buildings under 20 meters" the filter is
    [{attribute: height_m, operator: '<', value: 20}]; a record with
    [height = "15.2m"] resolves to 15.2 and is highlighted; a record with
    [height_ft = 80] resolves to 24.384 and is not. *)
Theorem C4_height_resolution_chain (b : Building.t)
        (buildings : list Building.t) :
  let height_m := Building.prop Properties.height_m b in
  let height_ft := Building.prop Properties.height_ft b in
  let height := Building.prop Properties.height b in
  (forall h, height_m = Some h -> ~ h == 0 ->
             heightInMeters b = Some (Num h))
  /\ (forall f, truthyNum height_m = false ->
                height_ft = Some f -> ~ f == 0 ->
                heightInMeters b = Some (Num (apiUtils.feetToMeters f)))
  /\ (forall text, truthyNum height_m = false ->
                   truthyNum height_ft = false ->
                   height = Some text -> text <> "" ->
        let heightStr := toLowerCase text in
        let parsed := parseFloat (stripNonNumeric heightStr) in
        let feet := includes heightStr "ft" || includes heightStr "feet" in
        let meters := includes heightStr "m" in
        (forall x, feet = true -> parsed = Num x ->
                   heightInMeters b = Some (Num (apiUtils.feetToMeters x)))
        /\ (forall x, feet = false -> meters = true -> parsed = Num x ->
                      heightInMeters b = Some (Num x))
        /\ (parsed = NaN \/ (feet = false /\ meters = false) ->
            heightInMeters b = None))
  /\ (forall text, truthyNum height_m = false ->
                   truthyNum height_ft = false ->
                   height = Some text -> text <> "" ->
        let heightStr := toLowerCase text in
        let kept :=
          string_of_list_ascii
            (filter isNumericChar (list_ascii_of_string heightStr)) in
        stripNonNumeric heightStr = kept
        /\ heightInMeters b
           = match parseFloat kept with
             | NaN => None
             | Num x =>
                 if includes heightStr "ft" || includes heightStr "feet"
                 then Some (Num (apiUtils.feetToMeters x))
                 else if includes heightStr "m" then Some (Num x)
                 else None
             end)
  /\ (forall pre num post,
        allChars notNumericChar pre = true ->
        allChars isNumericChar num = true ->
        allChars notNumericChar post = true ->
        stripNonNumeric (pre ++ num ++ post) = num)
  /\ (truthyNum height_m = false -> truthyNum height_ft = false ->
      truthyStr height = false -> heightInMeters b = None)
  /\ (heightInMeters b = None ->
      forall operator heightValue,
        heightMatches operator heightValue b = false)
  /\ (let st :=
        handleQuerySubmit
          (dashboardWith buildings "find buildings under 20 meters") in
      (exists description,
          State.interpretedFilter st
          = Some (Filter.mk "height_m" "<" (VNum 20) description))
      /\ State.highlightedBuildings st = filter (heightMatches "<" 20) buildings
      /\ (In b buildings ->
          truthyNum height_m = false -> truthyNum height_ft = false ->
          height = Some "15.2m" ->
          (exists x, heightInMeters b = Some (Num x) /\ x == 15.2)
          /\ In b (State.highlightedBuildings st))
      /\ (In b buildings ->
          truthyNum height_m = false -> height_ft = Some 80 ->
          (exists x, heightInMeters b = Some (Num x) /\ x == 24.384)
          /\ ~ In b (State.highlightedBuildings st))).
Proof.
  intros height_m height_ft height.
  split; [| split; [| split; [| split; [| split; [| split; [| split]]]]]].
  - intros h Hm Hnz. unfold heightInMeters. fold height_m.
    now rewrite (truthyNum_nonzero _ h Hm Hnz), Hm.
  - intros f Hm Hf Hnz. unfold heightInMeters. fold height_m height_ft.
    now rewrite Hm, (truthyNum_nonzero _ f Hf Hnz), Hf.
  - intros text Hm Hf Hs Hne heightStr parsed feet meters.
    assert (Ht : truthyStr height = true).
    { rewrite Hs. simpl. now destruct (String.eqb_spec text ""). }
    assert (E : heightInMeters b
                = if feet then
                    match parsed with
                    | Num x => Some (Num (x * 0.3048))
                    | NaN => None
                    end
                  else if meters || includes heightStr "meters"
                          || includes heightStr "metres" then
                    match parsed with
                    | Num x => Some (Num x)
                    | NaN => None
                    end
                  else None).
    { unfold heightInMeters. fold height_m height_ft height.
      now rewrite Hm, Hf, Ht, Hs. }
    split; [| split].
    + intros x Hfeet Hp. now rewrite E, Hfeet, Hp.
    + intros x Hfeet Hmeters Hp. now rewrite E, Hfeet, Hmeters, Hp.
    + intros [Hp | [Hfeet Hmeters]].
      * rewrite E. clearbody feet meters parsed. subst parsed.
        destruct feet; [reflexivity |].
        now destruct (meters || _ || _).
      * rewrite E, Hfeet.
        destruct (includes heightStr "meters") eqn:E1;
          [apply includes_first_char in E1; subst meters; congruence |].
        destruct (includes heightStr "metres") eqn:E2;
          [apply includes_first_char in E2; subst meters; congruence |].
        now rewrite Hmeters.
  - intros text Hm Hf Hs Hne heightStr kept.
    assert (Ht : truthyStr height = true).
    { rewrite Hs. simpl. now destruct (String.eqb_spec text ""). }
    split; [apply stripNonNumeric_filter |].
    unfold heightInMeters. fold height_m height_ft height.
    rewrite Hm, Hf, Ht, Hs. cbv zeta. fold heightStr.
    rewrite (stripNonNumeric_filter heightStr). fold kept.
    unfold apiUtils.feetToMeters.
    destruct (includes heightStr "ft" || includes heightStr "feet");
      [now destruct (parseFloat kept) |].
    destruct (includes heightStr "m") eqn:Em;
      [now destruct (parseFloat kept) |].
    destruct (includes heightStr "meters") eqn:E1;
      [apply includes_first_char in E1; congruence |].
    destruct (includes heightStr "metres") eqn:E2;
      [apply includes_first_char in E2; congruence |].
    now destruct (parseFloat kept).
  - intros pre num post Hpre Hnum Hpost.
    rewrite !stripNonNumeric_app, (stripNonNumeric_other pre Hpre),
      (stripNonNumeric_numeric num Hnum), (stripNonNumeric_other post Hpost).
    cbn [append]. apply append_empty_r.
  - intros Hm Hf Hs. unfold heightInMeters. fold height_m height_ft height.
    now rewrite Hm, Hf, Hs.
  - intros Hnone operator heightValue. unfold heightMatches.
    now rewrite Hnone.
  - intros st.
    assert (Hh : State.highlightedBuildings st
                 = filter (heightMatches "<" 20) buildings) by reflexivity.
    split; [eexists; reflexivity |]. split; [exact Hh |]. split.
    + intros Hin Hm Hf Hs.
      assert (E : heightInMeters b = Some (Num 15.2)).
      { unfold heightInMeters. fold height_m height_ft height.
        rewrite Hm, Hf, Hs. reflexivity. }
      split; [exists 15.2; split; [exact E | reflexivity] |].
      rewrite Hh. apply filter_In. split; [exact Hin |].
      unfold heightMatches. rewrite E. reflexivity.
    + intros Hin Hm Hf.
      assert (E : heightInMeters b = Some (Num (80 * 0.3048))).
      { unfold heightInMeters. fold height_m height_ft.
        rewrite Hm, Hf. reflexivity. }
      split; [exists (80 * 0.3048); split; [exact E | reflexivity] |].
      rewrite Hh. intros Hsel. apply filter_In in Hsel.
      destruct Hsel as [_ Hsel]. unfold heightMatches in Hsel.
      rewrite E in Hsel. discriminate Hsel.
Qed.

Lemma C4_height_resolution_chain_witness :
  let low := withHeightString "low" "15.2m" in
  let mid := withHeightFt "mid" 80 in
  let st :=
    handleQuerySubmit
      (dashboardWith [mid; low; shed] "find buildings under 20 meters") in
  heightInMeters tower = Some (Num 120)
  /\ heightInMeters mid = Some (Num (apiUtils.feetToMeters 80))
  /\ heightInMeters (withHeightString "hut" "11.5ft")
     = Some (Num (apiUtils.feetToMeters 11.5))
  /\ heightInMeters low = Some (Num 15.2)
  /\ heightInMeters (withHeightString "odd" "tall") = None
  /\ heightMatches "<" 20 shed = false
  /\ In low (State.highlightedBuildings st)
  /\ ~ In mid (State.highlightedBuildings st)
  /\ stripNonNumeric "about 11.5 ft" = "11.5"
  /\ heightInMeters (withHeightString "barn" "About 11.5 FT")
     = Some (Num (apiUtils.feetToMeters 11.5))
  /\ heightInMeters (withHeightString "hall" "Height: 1,250 cm")
     = Some (Num 1250).
Proof.
  intros low mid st.
  assert (Hstrip : stripNonNumeric "about 11.5 ft" = "11.5").
  { destruct (C4_height_resolution_chain shed [])
      as (_ & _ & _ & _ & Hpre & _).
    apply (Hpre "about " "11.5" " ft"); reflexivity. }
  assert (Hbarn : heightInMeters (withHeightString "barn" "About 11.5 FT")
                  = Some (Num (apiUtils.feetToMeters 11.5))).
  { destruct (C4_height_resolution_chain
                (withHeightString "barn" "About 11.5 FT") [])
      as (_ & _ & _ & Hk & _).
    destruct (Hk "About 11.5 FT" eq_refl eq_refl eq_refl) as [_ Hv].
    - intros H. discriminate H.
    - exact Hv. }
  assert (Hhall : heightInMeters (withHeightString "hall" "Height: 1,250 cm")
                  = Some (Num 1250)).
  { destruct (C4_height_resolution_chain
                (withHeightString "hall" "Height: 1,250 cm") [])
      as (_ & _ & _ & Hk & _).
    destruct (Hk "Height: 1,250 cm" eq_refl eq_refl eq_refl) as [_ Hv].
    - intros H. discriminate H.
    - exact Hv. }
  split.
  { refine (proj1 (C4_height_resolution_chain tower []) 120 eq_refl _).
    intros H. discriminate H. }
  split.
  { destruct (C4_height_resolution_chain mid []) as (_ & Hft & _).
    apply Hft; [reflexivity | reflexivity |]. intros H. discriminate H. }
  split.
  { destruct (C4_height_resolution_chain
                (withHeightString "hut" "11.5ft") []) as (_ & _ & Hs & _).
    destruct (Hs "11.5ft" eq_refl eq_refl eq_refl) as (Hfeet & _).
    - intros H. discriminate H.
    - apply Hfeet; reflexivity. }
  split.
  { destruct (C4_height_resolution_chain low []) as (_ & _ & Hs & _).
    destruct (Hs "15.2m" eq_refl eq_refl eq_refl) as (_ & Hm & _).
    - intros H. discriminate H.
    - apply Hm; reflexivity. }
  split.
  { destruct (C4_height_resolution_chain
                (withHeightString "odd" "tall") []) as (_ & _ & Hs & _).
    destruct (Hs "tall" eq_refl eq_refl eq_refl) as (_ & _ & Hnone).
    - intros H. discriminate H.
    - apply Hnone. left. reflexivity. }
  split.
  { destruct (C4_height_resolution_chain shed [])
      as (_ & _ & _ & _ & _ & Hun & Hex & _).
    apply Hex. apply Hun; reflexivity. }
  destruct (C4_height_resolution_chain low [mid; low; shed])
    as (_ & _ & _ & _ & _ & _ & _ & _ & _ & Hlow & _).
  destruct (C4_height_resolution_chain mid [mid; low; shed])
    as (_ & _ & _ & _ & _ & _ & _ & _ & _ & _ & Hmid).
  split; [apply Hlow; try reflexivity; right; left; reflexivity |].
  split; [apply Hmid; try reflexivity; left; reflexivity |].
  split; [exact Hstrip |]. split; [exact Hbarn | exact Hhall].
Defined.

(** What the height branch computes as its threshold: 50 without a match;
    with a match, the matched integer when the text contains neither [feet]
    nor [ft], and that integer times 0.3048 rounded to two decimals when the
    text contains one of them, wherever it stands. *)
Lemma heightValueOf_cases (query : string) :
  (exec heightPattern query = None -> heightValueOf query = 50)
  /\ (forall caps, exec heightPattern query = Some caps ->
        exists d more,
          caps = d :: more
          /\ heightValueOf query
             = if includes query "feet" || includes query "ft"
               then inject_Z
                      (Math_round
                         (apiUtils.feetToMeters (inject_Z (parseInt d)) * 100))
                    / 100
               else inject_Z (parseInt d)).
Proof.
  unfold heightValueOf. split.
  - now intros ->.
  - intros caps Hc. unfold heightPattern in *.
    destruct (exec_group_first _ _ _ _ Hc) as (d & more & ->).
    rewrite Hc. now exists d, more.
Qed.

(** C3, evaluated on "buildings over 100 meters or 300 feet": the pattern
    matches "100 meters" (the text after the match is " or 300 feet" and the
    captured integer is 100), yet the filter value is 30.48, the conversion
    of 100 feet, because the text contains [feet] further on. *)
Theorem C3_meters_converted_as_feet (buildings : list Building.t) :
  let st := handleQuerySubmit (dashboardWith buildings metersThenFeet) in
  exec heightPattern (toLowerCase metersThenFeet) = Some ["100"]
  /\ matchRe heightPattern "100 meters or 300 feet" []
       (fun rest caps => Some (rest :: caps))
     = Some [" or 300 feet"; "100"]
  /\ State.interpretedFilter st
     = Some (Filter.mk "height_m" ">" (VNum 30.48)
               "Buildings taller than 30.48 meters")
  /\ 30.48 == Qround.Qfloor (apiUtils.feetToMeters 100 * 100 + 0.5) # 100
  /\ ~ 30.48 == 100.
Proof.
  intros st. repeat split; try reflexivity. intros H. discriminate H.
Qed.

Lemma handleSaveProject_buildings (saveProject : Project.t -> outcome)
      (projectName : string) (st : State.t) :
  State.buildings (handleSaveProject saveProject projectName st)
  = State.buildings st.
Proof.
  unfold handleSaveProject.
  destruct (_ || _); [reflexivity |].
  now destruct (saveProject _).
Qed.

(** For a filter on [floors] or [building_type] that the cascade has built,
    the restore path selects the buildings the cascade selected. *)
Lemma applySavedFilter_interpret (StringToNumber : string -> jsnum)
      (query : string) (buildings : list Building.t) (f : Filter.t) :
  snd (interpret query buildings) = Some f ->
  Filter.attribute f = "floors" \/ Filter.attribute f = "building_type" ->
  applySavedFilter StringToNumber f buildings
  = Some (fst (interpret query buildings)).
Proof.
  unfold interpret.
  repeat match goal with
         | |- context [if ?c then _ else _] =>
             lazymatch c with
             | context [includes query _] => destruct c
             end
         end; simpl; intros Hf Ha;
    try discriminate Hf; injection Hf as <-;
    try (destruct Ha as [Ha | Ha]; discriminate Ha);
    unfold applySavedFilter; simpl.
  1-4: f_equal; apply filter_ext; intros b;
    unfold buildingTypeIs, hasBuildingType;
    now destruct (Building.prop Properties.building_type b).
  unfold direction.
  destruct (_ || _); simpl; f_equal; apply filter_ext; intros b;
    unfold propLt, propGt, floorsMatches; simpl;
    destruct (Building.prop Properties.floors b) as [n |]; simpl;
    try reflexivity; now destruct (Qeq_bool n 0).
Qed.

(** Saving and restoring reproduces the highlight of a query whose filter is
    on [floors] or [building_type]. *)
Lemma restore_reproduces_floors_and_types
      (StringToNumber : string -> jsnum) (saveProject : Project.t -> outcome)
      (projectName : string) (st : State.t) (f : Filter.t) :
  isEmpty (trim (State.queryText st)) = false ->
  State.interpretedFilter (handleQuerySubmit st) = Some f ->
  Filter.attribute f = "floors" \/ Filter.attribute f = "building_type" ->
  let queried := handleQuerySubmit st in
  let project := projectData projectName queried in
  let saved := handleSaveProject saveProject projectName queried in
  Project.filters project = [f]
  /\ State.highlightedBuildings
       (handleLoadProject StringToNumber (Some project) saved)
     = State.highlightedBuildings queried.
Proof.
  intros Hnb Hf Ha queried project saved.
  assert (Hp : Project.filters project = [f])
    by (unfold project, projectData, queried; cbn [Project.filters];
        now rewrite Hf).
  split; [exact Hp |].
  unfold handleLoadProject. rewrite Hp.
  assert (Hb : State.buildings saved = State.buildings st)
    by (unfold saved, queried;
        now rewrite handleSaveProject_buildings, handleQuerySubmit_buildings).
  assert (Hh : State.highlightedBuildings queried
               = fst (interpret (toLowerCase (State.queryText st))
                        (State.buildings st)))
    by (unfold queried; now apply handleQuerySubmit_highlighted).
  rewrite handleQuerySubmit_filter in Hf by exact Hnb.
  rewrite Hb, (applySavedFilter_interpret _ _ _ _ Hf Ha), Hh.
  now destruct (isEmpty (Project.query_text project)).
Qed.

(** C1, evaluated on the query "buildings over 10 meters" over one record
    with [height_ft = 80] and no [height_m]: the query highlights the record
    (80 ft is 24.384 m) and builds a [height_m] filter; the saved project
    carries that filter and the query text; restoring it over the same
    buildings highlights nothing, because the restore path reads [height_m]
    only. *)
Theorem C1_restore_drops_height_ft (StringToNumber : string -> jsnum) :
  let queried := handleQuerySubmit overTenMeters in
  let project := projectData "heights" queried in
  let saved := handleSaveProject (fun _ => Resolved) "heights" queried in
  let restored := handleLoadProject StringToNumber (Some project) saved in
  State.interpretedFilter queried
  = Some (Filter.mk "height_m" ">" (VNum 10)
            "Buildings taller than 10 meters")
  /\ State.highlightedBuildings queried = [eightyFeet]
  /\ Project.filters project
     = [Filter.mk "height_m" ">" (VNum 10) "Buildings taller than 10 meters"]
  /\ Project.query_text project = "buildings over 10 meters"
  /\ State.buildings saved = [eightyFeet]
  /\ State.interpretedFilter restored = State.interpretedFilter queried
  /\ State.queryText restored = "buildings over 10 meters"
  /\ State.highlightedBuildings restored = []
  /\ State.highlightedBuildings restored <> State.highlightedBuildings queried.
Proof.
  intros queried project saved restored.
  repeat split; try reflexivity. discriminate.
Qed.

(** ** Further properties *)

(** X2: the cascade is first-match-wins over the rule table: when no rule
    matches there is no filter and no highlight; otherwise the filter has
    the attribute of the first matching rule, with operator ['='] and that
    rule's category as value for the rules on [building_type] and
    [land_use], and operator ['>'] or ['<'] and a numeric value for the
    rules on [height_m] and [floors]. *)
Theorem interpret_first_rule (query : string) (buildings : list Building.t) :
  match firstRule query with
  | None => interpret query buildings = ([], None)
  | Some (_, (attribute, category)) =>
      exists f,
        snd (interpret query buildings) = Some f
        /\ Filter.attribute f = attribute
        /\ match category with
           | Some c => Filter.operator f = "=" /\ Filter.value f = VStr c
           | None =>
               (Filter.operator f = ">" \/ Filter.operator f = "<")
               /\ exists n, Filter.value f = VNum n
           end
  end.
Proof.
  unfold firstRule, ruleOutcomes, keywordRules, interpret, includesAny.
  cbn [combine find fst existsb].
  rewrite !orb_false_r, !orb_assoc.
  repeat match goal with
         | |- context [if ?c then _ else _] =>
             lazymatch c with
             | context [includes query _] => destruct c
             end
         end;
    try reflexivity;
    eexists; (split; [reflexivity |]); (split; [reflexivity |]);
    try (split; reflexivity).
  all: unfold direction; cbn [Filter.operator Filter.value];
    (split; [destruct (_ || _); [right | left]; reflexivity
            | eexists; reflexivity]).
Qed.

Lemma matchStar_prefix (p : ascii -> bool) (s : string) (caps : Captures)
      (k : Cont) (res : Captures) :
  matchStar p s caps k = Some res ->
  exists pre s',
    s = pre ++ s' /\ allChars p pre = true /\ k s' caps = Some res.
Proof.
  induction s as [| c s IH]; simpl; intros H.
  - now exists "", "".
  - destruct (p c) eqn:Hc.
    + destruct (matchStar p s caps k) as [r |] eqn:E.
      * injection H as <-. destruct (IH eq_refl) as (pre & s' & -> & Hp & Hk).
        exists (String c pre), s'. simpl. now rewrite Hc, Hp.
      * now exists "", (String c s).
    + now exists "", (String c s).
Qed.

Lemma length_app (a b : string) :
  String.length (a ++ b) = (String.length a + String.length b)%nat.
Proof.
  induction a as [| c a IH]; simpl; [reflexivity | now rewrite IH].
Qed.

Lemma take_app (a b : string) :
  take (String.length (a ++ b) - String.length b) (a ++ b) = a.
Proof.
  rewrite length_app.
  replace (String.length a + String.length b - String.length b)%nat
    with (String.length a) by lia.
  induction a as [| c a IH]; simpl; [now destruct b | now rewrite IH].
Qed.

(** The first capture of a pattern that opens with [(c+)] is a non-empty
    run of characters of the class [c]. *)
Lemma exec_capture_run (p : ascii -> bool) (rest : regex) (s : string)
      (caps : Captures) :
  exec (Seq (Group (Plus p)) rest) s = Some caps ->
  exists d more, caps = d :: more /\ d <> "" /\ allChars p d = true.
Proof.
  assert (Here : forall t res,
             matchRe (Seq (Group (Plus p)) rest) t []
               (fun _ caps => Some caps) = Some res ->
             exists d more, res = d :: more /\ d <> "" /\ allChars p d = true).
  { intros t res H. simpl in H.
    destruct t as [| c t]; [discriminate H |].
    destruct (p c) eqn:Hc; [| discriminate H].
    apply matchStar_prefix in H.
    destruct H as (pre & s' & -> & Hp & H).
    apply matchRe_inv in H. destruct H as (s2 & ext & H).
    injection H as <-.
    pose proof (take_app (String c pre) s') as Ht. simpl in Ht. rewrite Ht.
    exists (String c pre), ext. simpl. rewrite Hc, Hp.
    repeat split. discriminate. }
  induction s as [| c s IH]; cbn [exec]; intros H.
  - destruct (matchRe _ "" [] _) as [x |] eqn:E; [| discriminate H].
    injection H as <-. now apply Here in E.
  - destruct (matchRe _ (String c s) [] _) as [x |] eqn:E.
    + injection H as <-. now apply Here in E.
    + now apply IH.
Qed.

Lemma digitsValue_nonneg (s : string) :
  forall acc, (0 <= acc)%Z -> allChars isDigit s = true ->
              (0 <= digitsValue acc s)%Z.
Proof.
  induction s as [| c s IH]; cbn [digitsValue allChars]; intros acc Hacc H;
    [exact Hacc |].
  apply andb_true_iff in H. destruct H as [Hc Hs].
  apply IH; [| exact Hs].
  unfold isDigit in Hc. apply andb_true_iff in Hc. destruct Hc as [Hlo _].
  apply N.leb_le in Hlo. unfold digitValue. lia.
Qed.

Lemma inject_Z_nonneg (n : Z) : (0 <= n)%Z -> 0 <= inject_Z n.
Proof.
  intros H. change 0 with (inject_Z 0). now rewrite <- Zle_Qle.
Qed.

Lemma Math_round_bounds (x : Q) :
  x - (1 # 2) < inject_Z (Math_round x) /\ inject_Z (Math_round x) <= x + (1 # 2).
Proof.
  unfold Math_round. split.
  - pose proof (Qlt_floor (x + (1 # 2))) as H.
    rewrite inject_Z_plus in H. change (inject_Z 1) with 1 in H. lra.
  - apply Qfloor_le.
Qed.

(** X3: the integer a height or floors query captures is a non-empty run of
    digits, so the threshold of the filter is never negative. *)
Theorem thresholds_not_negative (query : string) :
  (forall caps, exec heightPattern query = Some caps ->
     exists d more, caps = d :: more /\ d <> "" /\ allChars isDigit d = true)
  /\ (forall caps, exec floorPattern query = Some caps ->
        exists d more, caps = d :: more /\ d <> "" /\ allChars isDigit d = true)
  /\ 0 <= heightValueOf query
  /\ 0 <= floorValueOf query.
Proof.
  split; [intros caps; apply exec_capture_run |].
  split; [intros caps; apply exec_capture_run |].
  split.
  - unfold heightValueOf.
    destruct (exec heightPattern query) as [caps |] eqn:E;
      [| intros H; discriminate H].
    destruct (exec_capture_run _ _ _ _ E) as (d & more & -> & _ & Hd).
    assert (Hn : 0 <= inject_Z (parseInt d))
      by (apply inject_Z_nonneg, digitsValue_nonneg; [lia | exact Hd]).
    destruct (includes query "feet" || includes query "ft"); [| exact Hn].
    pose proof (Math_round_bounds (inject_Z (parseInt d) * 0.3048 * 100))
      as [Hlo _].
    assert (Hz : (0 <= Math_round (inject_Z (parseInt d) * 0.3048 * 100))%Z).
    { apply Z.lt_succ_r. rewrite Zlt_Qlt.
      unfold Z.succ. rewrite inject_Z_plus. change (inject_Z 1) with 1.
      change (inject_Z 0) with 0. lra. }
    apply inject_Z_nonneg in Hz.
    apply Qle_shift_div_l; [reflexivity | lra].
  - unfold floorValueOf.
    destruct (exec floorPattern query) as [caps |] eqn:E;
      [| intros H; discriminate H].
    destruct (exec_capture_run _ _ _ _ E) as (d & more & -> & _ & Hd).
    apply inject_Z_nonneg, digitsValue_nonneg; [lia | exact Hd].
Qed.

Lemma thresholds_not_negative_witness :
  exec heightPattern "find buildings under 20 meters" = Some ["20"]
  /\ allChars isDigit "20" = true
  /\ 0 <= heightValueOf "find buildings under 20 meters".
Proof.
  destruct (thresholds_not_negative "find buildings under 20 meters")
    as (Hcap & _ & Hh & _).
  destruct (Hcap ["20"] eq_refl) as (d & more & E & _ & Hd).
  injection E as <- _.
  split; [reflexivity |]. split; [exact Hd | exact Hh].
Defined.

(** *** Saving, then loading *)

Lemma nonblank_nonempty (s : string) :
  isEmpty (trim s) = false -> isEmpty s = false.
Proof.
  destruct s; [intros H; discriminate H | reflexivity].
Qed.

Lemma interpret_height (query : string) (buildings : list Building.t)
      (f : Filter.t) :
  snd (interpret query buildings) = Some f ->
  Filter.attribute f = "height_m" ->
  fst (interpret query buildings)
  = filter (heightMatches (direction query) (heightValueOf query)) buildings
  /\ Filter.operator f = direction query
  /\ Filter.value f = VNum (heightValueOf query).
Proof.
  unfold interpret.
  repeat match goal with
         | |- context [if ?c then _ else _] =>
             lazymatch c with
             | context [includes query _] => destruct c
             end
         end; simpl; intros Hf Ha;
    try discriminate Hf; injection Hf as <-; try discriminate Ha.
  repeat split; reflexivity.
Qed.

Lemma interpret_land_use (query : string) (buildings : list Building.t)
      (f : Filter.t) :
  snd (interpret query buildings) = Some f ->
  Filter.attribute f = "land_use" ->
  (Filter.value f = VStr "commercial"
   /\ fst (interpret query buildings) = filter commercialMatches buildings)
  \/ (Filter.value f = VStr "residential"
      /\ fst (interpret query buildings) = filter residentialMatches buildings)
  \/ (Filter.value f = VStr "mixed_use"
      /\ fst (interpret query buildings) = filter mixedMatches buildings).
Proof.
  unfold interpret.
  repeat match goal with
         | |- context [if ?c then _ else _] =>
             lazymatch c with
             | context [includes query _] => destruct c
             end
         end; simpl; intros Hf Ha;
    try discriminate Hf; injection Hf as <-; try discriminate Ha;
    [left | right; left | right; right]; split; reflexivity.
Qed.

(** A filter built by the cascade never makes the restore path raise. *)
Lemma applySavedFilter_of_interpret (StringToNumber : string -> jsnum)
      (query : string) (buildings others : list Building.t) (f : Filter.t) :
  snd (interpret query buildings) = Some f ->
  exists restored, applySavedFilter StringToNumber f others = Some restored.
Proof.
  unfold interpret.
  repeat match goal with
         | |- context [if ?c then _ else _] =>
             lazymatch c with
             | context [includes query _] => destruct c
             end
         end; simpl; intros Hf;
    try discriminate Hf; injection Hf as <-;
    unfold applySavedFilter; simpl; try (eexists; reflexivity);
    unfold direction; destruct (_ || _); simpl; eexists; reflexivity.
Qed.

(** Loading the project saved right after a query highlights what the
    restore path selects for the query's filter. *)
Lemma load_saved_highlight (StringToNumber : string -> jsnum)
      (saveProject : Project.t -> outcome) (projectName : string)
      (st : State.t) (f : Filter.t) (restored : list Building.t) :
  State.interpretedFilter (handleQuerySubmit st) = Some f ->
  applySavedFilter StringToNumber f (State.buildings st) = Some restored ->
  let queried := handleQuerySubmit st in
  let project := projectData projectName queried in
  let saved := handleSaveProject saveProject projectName queried in
  let loaded := handleLoadProject StringToNumber (Some project) saved in
  State.highlightedBuildings loaded = restored
  /\ State.interpretedFilter loaded = Some f
  /\ State.currentProject loaded = Some project
  /\ (isEmpty (State.queryText st) = false ->
      State.queryText loaded = State.queryText st).
Proof.
  intros Hf Hap queried project saved loaded.
  assert (Hp : Project.filters project = [f])
    by (unfold project, projectData, queried; cbn [Project.filters];
        now rewrite Hf).
  assert (Hb : State.buildings saved = State.buildings st)
    by (unfold saved, queried;
        now rewrite handleSaveProject_buildings, handleQuerySubmit_buildings).
  assert (Hq : Project.query_text project = State.queryText st).
  { unfold project, projectData, queried, handleQuerySubmit.
    cbn [Project.query_text].
    destruct (isEmpty (trim _)); [reflexivity |].
    now destruct (interpret _ _). }
  unfold loaded, handleLoadProject. rewrite Hp, Hb, Hap, Hq.
  destruct (isEmpty (State.queryText st)); repeat split; try reflexivity.
  intros H. discriminate H.
Qed.

(** X5: for a query with a height filter over buildings that all carry a
    non-zero [height_m], saving and loading the project highlights exactly
    what the query highlighted. *)
Theorem height_round_trip_with_height_m
        (StringToNumber : string -> jsnum)
        (saveProject : Project.t -> outcome) (projectName : string)
        (st : State.t) (f : Filter.t) :
  isEmpty (trim (State.queryText st)) = false ->
  State.interpretedFilter (handleQuerySubmit st) = Some f ->
  Filter.attribute f = "height_m" ->
  (forall b, In b (State.buildings st) ->
             truthyNum (Building.prop Properties.height_m b) = true) ->
  let queried := handleQuerySubmit st in
  let project := projectData projectName queried in
  let saved := handleSaveProject saveProject projectName queried in
  State.highlightedBuildings
    (handleLoadProject StringToNumber (Some project) saved)
  = State.highlightedBuildings queried.
Proof.
  intros Hnb Hf Ha Hall queried project saved.
  pose proof Hf as Hf'.
  rewrite handleQuerySubmit_filter in Hf' by exact Hnb.
  destruct (interpret_height _ _ _ Hf' Ha) as (Hh & Hop & Hv).
  assert (Hap : applySavedFilter StringToNumber f (State.buildings st)
                = Some (State.highlightedBuildings queried)).
  { unfold queried. rewrite handleQuerySubmit_highlighted by exact Hnb.
    rewrite Hh. unfold applySavedFilter. rewrite Ha, Hop, Hv.
    cbn [String.eqb Ascii.eqb Bool.eqb]. unfold direction.
    destruct (_ || _); cbn [String.eqb Ascii.eqb Bool.eqb];
      f_equal; apply filter_ext_in; intros b Hb;
      specialize (Hall b Hb);
      unfold propGt, propLt, heightMatches, heightInMeters;
      rewrite Hall;
      destruct (Building.prop Properties.height_m b) as [h |];
      try discriminate Hall; reflexivity. }
  exact (proj1 (load_saved_highlight StringToNumber saveProject projectName
                  st f _ Hf Hap)).
Qed.

Lemma height_round_trip_with_height_m_witness :
  let st := dashboardWith [tower; tower] "height over 100 m" in
  let queried := handleQuerySubmit st in
  State.highlightedBuildings queried = [tower; tower]
  /\ State.highlightedBuildings
       (handleLoadProject noNumber (Some (projectData "h" queried))
          (handleSaveProject (fun _ => Resolved) "h" queried))
     = [tower; tower].
Proof.
  intros st queried. split; [reflexivity |].
  refine (height_round_trip_with_height_m noNumber (fun _ => Resolved) "h" st
            (Filter.mk "height_m" ">" (VNum 100)
               "Buildings taller than 100 meters")
            eq_refl eq_refl eq_refl _).
  intros b [<- | [<- | []]]; reflexivity.
Defined.

(** X6: for a query with a land-use filter, loading the saved project
    highlights only buildings the query highlighted; for [mixed_use] it
    highlights exactly the same buildings. *)
Theorem land_use_restore_is_narrower
        (StringToNumber : string -> jsnum)
        (saveProject : Project.t -> outcome) (projectName : string)
        (st : State.t) (f : Filter.t) :
  isEmpty (trim (State.queryText st)) = false ->
  State.interpretedFilter (handleQuerySubmit st) = Some f ->
  Filter.attribute f = "land_use" ->
  let queried := handleQuerySubmit st in
  let project := projectData projectName queried in
  let saved := handleSaveProject saveProject projectName queried in
  let loaded := handleLoadProject StringToNumber (Some project) saved in
  incl (State.highlightedBuildings loaded) (State.highlightedBuildings queried)
  /\ (Filter.value f = VStr "mixed_use" ->
      State.highlightedBuildings loaded = State.highlightedBuildings queried).
Proof.
  intros Hnb Hf Ha queried project saved loaded.
  pose proof Hf as Hf'.
  rewrite handleQuerySubmit_filter in Hf' by exact Hnb.
  assert (Hq : State.highlightedBuildings queried
               = fst (interpret (toLowerCase (State.queryText st))
                        (State.buildings st)))
    by (unfold queried; now apply handleQuerySubmit_highlighted).
  assert (Hload : forall v,
             Filter.value f = VStr v ->
             State.highlightedBuildings loaded
             = filter (landUseMatches (toLowerCase v)) (State.buildings st)).
  { intros v Hv.
    refine (proj1 (load_saved_highlight StringToNumber saveProject projectName
                     st f _ Hf _)).
    unfold applySavedFilter. rewrite Ha, Hv. reflexivity. }
  destruct (interpret_land_use _ _ _ Hf' Ha)
    as [[Hv Hh] | [[Hv Hh] | [Hv Hh]]];
    rewrite Hq, Hh, (Hload _ Hv); (split; [| intros Hm]).
  - intros b Hb. apply filter_In in Hb. apply filter_In.
    destruct Hb as [Hin Hb]. split; [exact Hin |].
    unfold landUseMatches in Hb. simpl in Hb. unfold commercialMatches.
    cbv zeta. now rewrite Hb.
  - rewrite Hv in Hm. discriminate Hm.
  - intros b Hb. apply filter_In in Hb. apply filter_In.
    destruct Hb as [Hin Hb]. split; [exact Hin |].
    unfold landUseMatches in Hb. simpl in Hb. unfold residentialMatches.
    cbv zeta. now rewrite Hb.
  - rewrite Hv in Hm. discriminate Hm.
  - intros b Hb. apply filter_In in Hb. apply filter_In.
    destruct Hb as [Hin Hb]. split; [exact Hin |]. exact Hb.
  - reflexivity.
Qed.

Lemma land_use_restore_is_narrower_witness :
  let st :=
    dashboardWith [mixedBlock; condoBlock] "show residential buildings" in
  let queried := handleQuerySubmit st in
  let loaded :=
    handleLoadProject noNumber (Some (projectData "r" queried))
      (handleSaveProject (fun _ => Resolved) "r" queried) in
  State.highlightedBuildings queried = [mixedBlock; condoBlock]
  /\ State.highlightedBuildings loaded = [mixedBlock]
  /\ incl (State.highlightedBuildings loaded)
          (State.highlightedBuildings queried).
Proof.
  intros st queried loaded.
  split; [reflexivity |]. split; [reflexivity |].
  refine (proj1 (land_use_restore_is_narrower noNumber (fun _ => Resolved) "r"
                   st
                   (Filter.mk "land_use" "=" (VStr "residential")
                      "Residential buildings (homes, apartments, condos)")
                   eq_refl eq_refl eq_refl)).
Defined.

(** X7: whatever a non-blank query is interpreted as, and however the save
    call ends, loading the project built from it brings back the filter
    and the query text, and makes the project the current one. *)
Theorem save_load_restores_filter_and_text
        (StringToNumber : string -> jsnum)
        (saveProject : Project.t -> outcome) (projectName : string)
        (st : State.t) (f : Filter.t) :
  isEmpty (trim (State.queryText st)) = false ->
  State.interpretedFilter (handleQuerySubmit st) = Some f ->
  let queried := handleQuerySubmit st in
  let project := projectData projectName queried in
  let saved := handleSaveProject saveProject projectName queried in
  let loaded := handleLoadProject StringToNumber (Some project) saved in
  State.interpretedFilter loaded = Some f
  /\ State.queryText loaded = State.queryText st
  /\ State.currentProject loaded = Some project
  /\ Project.filters project = [f]
  /\ Project.query_text project = State.queryText st.
Proof.
  intros Hnb Hf queried project saved loaded.
  pose proof Hf as Hf'.
  rewrite handleQuerySubmit_filter in Hf' by exact Hnb.
  destruct (applySavedFilter_of_interpret StringToNumber _ _
              (State.buildings st) _ Hf') as [restored Hap].
  destruct (load_saved_highlight StringToNumber saveProject projectName
              st f restored Hf Hap) as (_ & Hfl & Hcp & Hqt).
  split; [exact Hfl |].
  split; [apply Hqt, nonblank_nonempty, Hnb |].
  split; [exact Hcp |].
  unfold project, projectData, queried. cbn [Project.filters Project.query_text].
  rewrite Hf. split; [reflexivity |].
  unfold handleQuerySubmit. rewrite Hnb. now destruct (interpret _ _).
Qed.

Lemma save_load_restores_filter_and_text_witness :
  let st := dashboardWith [tower] "Show TALL buildings" in
  let queried := handleQuerySubmit st in
  let saved := handleSaveProject (fun _ => Resolved) "t" queried in
  let loaded :=
    handleLoadProject noNumber (Some (projectData "t" queried)) saved in
  State.queryText saved = ""
  /\ State.interpretedFilter saved = None
  /\ State.interpretedFilter loaded = Some highRiseFilter
  /\ State.queryText loaded = "Show TALL buildings".
Proof.
  intros st queried saved loaded.
  split; [reflexivity |]. split; [reflexivity |].
  destruct (save_load_restores_filter_and_text noNumber (fun _ => Resolved)
              "t" st highRiseFilter eq_refl eq_refl) as (Hf & Hq & _).
  split; [exact Hf | exact Hq].
Defined.

(** X8: a project saved after a query that matched no rule carries no
    filter; once the save has cleared the query box, loading that project
    brings nothing back: the query text stays empty, and there is no filter
    and no highlight. *)
Theorem unclassified_project_restores_nothing
        (StringToNumber : string -> jsnum)
        (saveProject : Project.t -> outcome) (projectName : string)
        (st : State.t) :
  isEmpty (trim (State.queryText st)) = false ->
  matchesSomeRule (toLowerCase (State.queryText st)) = false ->
  isEmpty (State.username st) = false ->
  truthyStr (State.selectedZone st) = true ->
  let queried := handleQuerySubmit st in
  let project := projectData projectName queried in
  saveProject project = Resolved ->
  let saved := handleSaveProject saveProject projectName queried in
  let loaded := handleLoadProject StringToNumber (Some project) saved in
  Project.filters project = []
  /\ Project.query_text project = State.queryText st
  /\ State.queryText loaded = ""
  /\ State.interpretedFilter loaded = None
  /\ State.highlightedBuildings loaded = []
  /\ State.currentProject loaded = Some project.
Proof.
  intros Hnb Hnone Hu Hz queried project Hok saved loaded.
  assert (Hi : interpret (toLowerCase (State.queryText st)) (State.buildings st)
               = ([], None)).
  { unfold matchesSomeRule, includesAny in Hnone. simpl in Hnone.
    split_orb. unfold interpret. rewrite_includes. reflexivity. }
  assert (Hq : queried
               = State.setLoading false
                   (State.setInterpretedFilter None
                      (State.setHighlightedBuildings []
                         (State.setLoading true st))))
    by (unfold queried, handleQuerySubmit; now rewrite Hnb, Hi).
  assert (Hs : saved
               = State.setHighlightedBuildings []
                   (State.setInterpretedFilter None
                      (State.setQueryText "" queried))).
  { unfold saved, handleSaveProject. fold project. rewrite Hok.
    rewrite Hq. cbn [State.username State.selectedZone State.setLoading
                       State.setInterpretedFilter State.setHighlightedBuildings].
    now rewrite Hu, Hz. }
  assert (Hp : Project.filters project = [])
    by (unfold project; rewrite Hq; reflexivity).
  split; [exact Hp |].
  split; [unfold project; rewrite Hq; reflexivity |].
  unfold loaded, handleLoadProject. rewrite Hp, Hs.
  repeat split; reflexivity.
Qed.

Lemma unclassified_project_restores_nothing_witness :
  let st := dashboardWith [tower] "hello there" in
  let queried := handleQuerySubmit st in
  let project := projectData "h" queried in
  Project.query_text project = "hello there"
  /\ State.queryText
       (handleLoadProject noNumber (Some project)
          (handleSaveProject (fun _ => Resolved) "h" queried)) = "".
Proof.
  intros st queried project.
  destruct (unclassified_project_restores_nothing noNumber (fun _ => Resolved)
              "h" st eq_refl eq_refl eq_refl eq_refl eq_refl)
    as (_ & Hq & Ht & _).
  split; [exact Hq | exact Ht].
Defined.

Lemma handleLoadProject_buildings (StringToNumber : string -> jsnum)
      (project : option Project.t) (st : State.t) :
  State.buildings (handleLoadProject StringToNumber project st)
  = State.buildings st.
Proof.
  unfold handleLoadProject.
  destruct project as [p |]; [| reflexivity].
  destruct (Project.filters p) as [| f rest]; [reflexivity |].
  destruct (applySavedFilter _ _ _); [| reflexivity].
  now destruct (isEmpty _).
Qed.

(** X9: loading a project is idempotent: loading it a second time changes
    nothing. *)
Theorem load_project_idempotent (StringToNumber : string -> jsnum)
        (project : option Project.t) (st : State.t) :
  handleLoadProject StringToNumber project
    (handleLoadProject StringToNumber project st)
  = handleLoadProject StringToNumber project st.
Proof.
  unfold handleLoadProject at 1.
  destruct project as [p |]; [| reflexivity].
  rewrite handleLoadProject_buildings.
  unfold handleLoadProject.
  destruct (Project.filters p) as [| f rest]; [reflexivity |].
  destruct (applySavedFilter _ _ _) as [restored |]; [| reflexivity].
  now destruct (isEmpty _).
Qed.

(** X10: when the stored land-use filter carries a number and at least one
    building is loaded, the restore stops half-way: the project becomes the
    current one and its filter is shown, while the highlight and the query
    text stay what they were. *)
Theorem numeric_land_use_value_stops_restore
        (StringToNumber : string -> jsnum) (project : Project.t)
        (st : State.t) (f : Filter.t) (rest : list Filter.t) (n : Q) :
  Project.filters project = f :: rest ->
  Filter.attribute f = "land_use" ->
  Filter.value f = VNum n ->
  State.buildings st <> [] ->
  let loaded := handleLoadProject StringToNumber (Some project) st in
  State.currentProject loaded = Some project
  /\ State.interpretedFilter loaded = Some f
  /\ State.highlightedBuildings loaded = State.highlightedBuildings st
  /\ State.queryText loaded = State.queryText st.
Proof.
  intros Hp Ha Hv Hb loaded. unfold loaded, handleLoadProject, applySavedFilter.
  rewrite Hp, Ha, Hv. cbn [String.eqb Ascii.eqb Bool.eqb].
  destruct (State.buildings st); [contradiction |].
  repeat split; reflexivity.
Qed.

Lemma numeric_land_use_value_stops_restore_witness :
  let st := handleQuerySubmit (dashboardWith [tower] "tall buildings") in
  let loaded := handleLoadProject noNumber (Some numericLandUseProject) st in
  State.highlightedBuildings loaded = [tower]
  /\ State.queryText loaded = "tall buildings"
  /\ State.interpretedFilter loaded
     = Some (Filter.mk "land_use" "=" (VNum 3) "Land use 3").
Proof.
  intros st loaded.
  destruct (numeric_land_use_value_stops_restore noNumber
              numericLandUseProject st _ _ 3 eq_refl eq_refl eq_refl)
    as (_ & Hf & Hh & Hq).
  - intros H. discriminate H.
  - split; [exact Hh |]. split; [exact Hq | exact Hf].
Defined.

(** *** The page as a whole *)

Lemma filter_none {A : Type} (l : list A) : filter (fun _ => false) l = [].
Proof.
  induction l as [| a l IH]; [reflexivity | exact IH].
Qed.

Lemma interpret_is_selection (query : string) (buildings : list Building.t) :
  exists p, fst (interpret query buildings) = filter p buildings.
Proof.
  unfold interpret.
  repeat match goal with
         | |- context [if ?c then _ else _] =>
             lazymatch c with
             | context [includes query _] => destruct c
             end
         end; cbn [fst]; try (eexists; reflexivity).
  exists (fun _ => false). now rewrite filter_none.
Qed.

Lemma applySavedFilter_is_selection (StringToNumber : string -> jsnum)
      (f : Filter.t) (buildings restored : list Building.t) :
  applySavedFilter StringToNumber f buildings = Some restored ->
  exists p, restored = filter p buildings.
Proof.
  unfold applySavedFilter.
  repeat match goal with
         | |- context [if ?c then _ else _] => destruct c
         end;
    try match goal with
        | |- context [match Filter.value f with _ => _ end] =>
            destruct (Filter.value f)
        end;
    intros H; try discriminate H; injection H as <-;
    first [ exists (fun _ => false); now rewrite filter_none
          | eexists; reflexivity ].
Qed.

Lemma filter_length_le {A : Type} (p : A -> bool) (l : list A) :
  (List.length (filter p l) <= List.length l)%nat.
Proof.
  induction l as [| a l IH]; simpl; [lia |].
  destruct (p a); simpl; lia.
Qed.

(** The two handlers with an [await] are their two halves run one after the
    other. *)
Lemma handleZoneSelect_split (getBuildingsByZone : string -> Page.fetched)
      (zoneId : option string) (zoneInfo : option Zone.t) (pg : Page.t) :
  Page.handleZoneSelect getBuildingsByZone zoneId zoneInfo pg
  = match zoneId with
    | Some zone =>
        if isEmpty zone then Page.zoneSelectStart zoneId pg
        else Page.zoneSelectSettle zone zoneInfo (getBuildingsByZone zone)
               (Page.zoneSelectStart zoneId pg)
    | None => Page.zoneSelectStart zoneId pg
    end.
Proof.
  unfold Page.handleZoneSelect, Page.zoneSelectStart, Page.zoneSelectSettle.
  destruct zoneId as [zone |]; [| reflexivity].
  unfold truthyStr, isEmpty. destruct (zone =? ""); [reflexivity |].
  cbn [negb]. now destruct (getBuildingsByZone zone).
Qed.

Lemma handleSaveProject_split (saveProject : Project.t -> outcome)
      (projectName : string) (st : State.t) :
  handleSaveProject saveProject projectName st
  = if isEmpty (State.username st) || negb (truthyStr (State.selectedZone st))
    then st
    else Page.saveSettle (saveProject (projectData projectName st)) st.
Proof.
  unfold handleSaveProject, Page.saveSettle.
  destruct (_ || _); [reflexivity |]. now destruct (saveProject _).
Qed.

Lemma selection_of_nothing (l : list Building.t) :
  exists p : Building.t -> bool, [] = filter p l.
Proof.
  exists (fun _ => false). now rewrite filter_none.
Qed.

Lemma onState_keeps (f : State.t -> State.t) (w : Page.world) :
  (forall st, State.buildings (f st) = State.buildings st) ->
  (forall st, highlightIsSelection st -> highlightIsSelection (f st)) ->
  loadInvariant w -> loadInvariant (Page.onState f w).
Proof.
  intros Hb Hs (Hsel & Hlen & Hempty).
  unfold loadInvariant, Page.onState. cbn [Page.page Page.state Page.loads].
  split; [now apply Hs |]. split; [exact Hlen |].
  intros Hne. rewrite Hb. now apply Hempty.
Qed.

Lemma handleQuerySubmit_selection (st : State.t) :
  highlightIsSelection st -> highlightIsSelection (handleQuerySubmit st).
Proof.
  intros Hinv. unfold highlightIsSelection, handleQuerySubmit.
  destruct (isEmpty _); [exact Hinv |].
  destruct (interpret_is_selection (toLowerCase (State.queryText st))
              (State.buildings st)) as [p Hp].
  destruct (interpret _ _) as [fb fl]. exists p. exact Hp.
Qed.

Lemma handleLoadProject_selection (StringToNumber : string -> jsnum)
      (project : option Project.t) (st : State.t) :
  highlightIsSelection st ->
  highlightIsSelection (handleLoadProject StringToNumber project st).
Proof.
  intros Hinv. unfold highlightIsSelection, handleLoadProject.
  destruct project as [pr |]; [| exact Hinv].
  destruct (Project.filters pr) as [| f rest]; [exact Hinv |].
  destruct (applySavedFilter _ _ _) as [restored |] eqn:E; [| exact Hinv].
  apply applySavedFilter_is_selection in E. destruct E as [p ->].
  destruct (isEmpty _); now exists p.
Qed.

Lemma step_keeps_invariant (StringToNumber : string -> jsnum)
      (w : Page.world) (e : Page.event) :
  Page.loadsDoNotOverlap StringToNumber w [e] = true ->
  loadInvariant w -> loadInvariant (Page.step StringToNumber w e).
Proof.
  intros Hseq Hinv. pose proof Hinv as (Hsel & Hlen & Hempty).
  destruct e as [text | | | project | building | name | zoneId zoneInfo
                | n result | projectName | n result];
    cbn [Page.step].
  - apply onState_keeps; [reflexivity | | exact Hinv]. intros st H. exact H.
  - apply onState_keeps;
      [apply handleQuerySubmit_buildings
      | apply handleQuerySubmit_selection | exact Hinv].
  - apply onState_keeps; [reflexivity | | exact Hinv].
    intros st _. apply selection_of_nothing.
  - apply onState_keeps;
      [intros st; apply handleLoadProject_buildings
      | intros st; apply handleLoadProject_selection | exact Hinv].
  - exact Hinv.
  - apply onState_keeps; [reflexivity | | exact Hinv]. intros st H. exact H.
  - unfold loadInvariant. cbn [Page.page Page.loads].
    assert (Hb : State.buildings
                   (Page.state (Page.zoneSelectStart zoneId (Page.page w)))
                 = [])
      by (unfold Page.zoneSelectStart; now destruct (truthyStr zoneId)).
    split.
    { unfold highlightIsSelection, Page.zoneSelectStart.
      destruct (truthyStr zoneId); apply selection_of_nothing. }
    split; [| intros _; exact Hb].
    destruct zoneId as [zone |]; [| exact Hlen].
    cbn [Page.loadsDoNotOverlap] in Hseq.
    destruct (isEmpty zone); [exact Hlen |].
    destruct (Page.loads w); [cbn; lia | discriminate Hseq].
  - destruct (nth_error (Page.loads w) n) as [r |] eqn:En; [| exact Hinv].
    destruct (Page.loads w) as [| r0 [| r1 rest]] eqn:El;
      [destruct n; discriminate En | | cbn in Hlen; lia].
    destruct n as [| n]; [| destruct n; discriminate En].
    assert (Hb : State.buildings (Page.state (Page.page w)) = [])
      by (apply Hempty; discriminate).
    unfold loadInvariant. cbn [Page.page Page.loads Page.removeNth
                                 firstn skipn app length].
    split; [| split; [lia | intros H; now contradiction H]].
    destruct Hsel as [p Hp]. rewrite Hb in Hp. cbn in Hp.
    unfold highlightIsSelection, Page.zoneSelectSettle.
    destruct result as [bs | message];
      cbn [Page.state State.highlightedBuildings State.setLoading
           Page.setBuildings Page.setZoneData Page.setSelectedZone
           State.buildings]; rewrite Hp; apply selection_of_nothing.
  - destruct (_ || _); exact Hinv.
  - destruct (nth_error (Page.saves w) n) as [posted |]; [| exact Hinv].
    unfold loadInvariant. cbn [Page.page Page.loads Page.onState Page.state].
    destruct result; cbn [Page.saveSettle].
    + split; [apply selection_of_nothing |]. split; [exact Hlen | exact Hempty].
    + split; [exact Hsel |]. split; [exact Hlen | exact Hempty].
Qed.

(** X11: on the page with its awaited calls in flight (a zone load or a save
    can settle after any number of other events), as long as no zone is
    clicked while a zone load is in flight, the highlighted buildings are
    always a selection of the loaded buildings in their order, so a project
    built from the page never counts more highlighted buildings than
    buildings. *)
Theorem highlight_within_buildings_without_overlap
        (StringToNumber : string -> jsnum) (events : list Page.event)
        (projectName : string) :
  Page.loadsDoNotOverlap StringToNumber Page.start events = true ->
  let st :=
    Page.state (Page.page (Page.run StringToNumber events Page.start)) in
  highlightIsSelection st
  /\ incl (State.highlightedBuildings st) (State.buildings st)
  /\ (Project.highlighted_count (projectData projectName st)
      <= Project.total_buildings (projectData projectName st))%nat.
Proof.
  intros Hseq st.
  assert (G : forall w,
             Page.loadsDoNotOverlap StringToNumber w events = true ->
             loadInvariant w ->
             loadInvariant (Page.run StringToNumber events w)).
  { clear. induction events as [| e events IH]; intros w Hseq Hinv;
      [exact Hinv |].
    cbn [Page.loadsDoNotOverlap] in Hseq.
    apply andb_true_iff in Hseq. destruct Hseq as [He Hrest].
    unfold Page.run. cbn [fold_left]. apply IH; [exact Hrest |].
    apply step_keeps_invariant; [| exact Hinv].
    cbn [Page.loadsDoNotOverlap]. now rewrite He. }
  assert (Hinv : highlightIsSelection st).
  { apply G; [exact Hseq |].
    split; [apply selection_of_nothing |].
    split; [cbn; lia | intros H; now contradiction H]. }
  split; [exact Hinv |]. destruct Hinv as [p Hp]. split.
  - rewrite Hp. intros b Hb. apply filter_In in Hb. tauto.
  - cbn [projectData Project.highlighted_count Project.total_buildings].
    rewrite Hp. apply filter_length_le.
Qed.

Lemma highlight_within_buildings_without_overlap_witness :
  let st := Page.state (Page.page (Page.run noNumber busySession Page.start)) in
  State.buildings st = [tower; shed]
  /\ State.highlightedBuildings st = [tower]
  /\ incl (State.highlightedBuildings st) (State.buildings st).
Proof.
  intros st. split; [reflexivity |]. split; [reflexivity |].
  exact (proj1 (proj2 (highlight_within_buildings_without_overlap
                         noNumber busySession "p" eq_refl))).
Defined.

(** X19: when a second zone is clicked while the load of the first is in
    flight, and the first load is answered and a query submitted before the
    second load is answered, the page ends with the buildings of the second
    zone and the highlight computed over the buildings of the first. *)
Theorem overlapped_loads_leave_a_foreign_highlight
        (StringToNumber : string -> jsnum) (w : Page.world)
        (zoneA zoneB text : string) (infoA infoB : option Zone.t)
        (buildingsA buildingsB : list Building.t) :
  Page.loads w = [] ->
  isEmpty zoneA = false ->
  isEmpty zoneB = false ->
  isEmpty (trim text) = false ->
  let st :=
    Page.state
      (Page.page
         (Page.run StringToNumber
            [ Page.ClickZone (Some zoneA) infoA;
              Page.ClickZone (Some zoneB) infoB;
              Page.ZoneSettles 0 (Page.Loaded (Some buildingsA));
              Page.TypeQuery text;
              Page.SubmitQuery;
              Page.ZoneSettles 0 (Page.Loaded (Some buildingsB)) ]
            w)) in
  State.selectedZone st = Some zoneB
  /\ State.buildings st = buildingsB
  /\ State.highlightedBuildings st
     = fst (interpret (toLowerCase text) buildingsA)
  /\ State.interpretedFilter st
     = snd (interpret (toLowerCase text) buildingsA).
Proof.
  intros Hl Ha Hb Hnb st. subst st.
  destruct w as [pg loads saves]. cbn [Page.loads] in Hl. subst loads.
  unfold Page.run. cbn [fold_left Page.step Page.loads Page.page Page.saves].
  rewrite Ha, Hb.
  cbn [app nth_error Page.zone Page.zoneInfo Page.removeNth firstn skipn
       Page.onState Page.page Page.loads Page.saves].
  unfold Page.zoneSelectStart, truthyStr. fold (isEmpty zoneA) (isEmpty zoneB).
  rewrite Ha, Hb.
  cbn [negb Page.zoneSelectSettle Page.state Page.selectedBuilding Page.error].
  unfold handleQuerySubmit.
  cbn [State.queryText State.setQueryText State.setLoading Page.setBuildings
       Page.setZoneData Page.setSelectedZone State.setHighlightedBuildings
       State.buildings].
  rewrite Hnb.
  destruct (interpret (toLowerCase text) buildingsA) as [fb fl].
  repeat split.
Qed.

Lemma overlapped_loads_leave_a_foreign_highlight_witness :
  let st :=
    Page.state (Page.page (Page.run noNumber overlappedLoads Page.start)) in
  Page.loadsDoNotOverlap noNumber Page.start overlappedLoads = false
  /\ State.buildings st = [shed]
  /\ State.highlightedBuildings st = [tower]
  /\ ~ incl (State.highlightedBuildings st) (State.buildings st).
Proof.
  intros st.
  destruct (overlapped_loads_leave_a_foreign_highlight noNumber Page.start
              "stephen-avenue" "east-village" "tall buildings" None None
              [tower] [shed] eq_refl eq_refl eq_refl eq_refl)
    as (_ & Hb & Hh & _).
  split; [reflexivity |]. split; [exact Hb |]. split; [exact Hh |].
  intros H. destruct (H tower (or_introl eq_refl)) as [E | []].
  discriminate E.
Defined.

(** X12: selecting a zone or clearing the selection, however the load ends,
    leaves no highlight and no selected building, and leaves the interpreted
    filter, the query text, the user name and the current project as they
    were: a filter shown before stays shown with nothing highlighted. *)
Theorem zone_change_drops_highlight_keeps_filter
        (getBuildingsByZone : string -> Page.fetched)
        (zoneId : option string) (zoneInfo : option Zone.t) (pg : Page.t) :
  let pg' := Page.handleZoneSelect getBuildingsByZone zoneId zoneInfo pg in
  State.highlightedBuildings (Page.state pg') = []
  /\ Page.selectedBuilding pg' = None
  /\ State.interpretedFilter (Page.state pg')
     = State.interpretedFilter (Page.state pg)
  /\ State.queryText (Page.state pg') = State.queryText (Page.state pg)
  /\ State.username (Page.state pg') = State.username (Page.state pg)
  /\ State.currentProject (Page.state pg')
     = State.currentProject (Page.state pg).
Proof.
  unfold Page.handleZoneSelect.
  destruct zoneId as [zone |]; [| repeat split].
  destruct (isEmpty zone); [repeat split |].
  destruct (getBuildingsByZone zone); repeat split.
Qed.

(** X13: when the load of a zone fails, the building list is empty and the
    error message is set, but the zone selected before stays selected with
    its data; the map, which refills its group only for a non-empty list,
    keeps the meshes it had. *)
Theorem failed_zone_load_keeps_old_zone
        (getBuildingsByZone : string -> Page.fetched)
        (zone message : string) (zoneInfo : option Zone.t) (pg : Page.t)
        (group : list ThreeMap.mesh) :
  isEmpty zone = false ->
  getBuildingsByZone zone = Page.Failed message ->
  let pg' :=
    Page.handleZoneSelect getBuildingsByZone (Some zone) zoneInfo pg in
  State.buildings (Page.state pg') = []
  /\ State.selectedZone (Page.state pg') = State.selectedZone (Page.state pg)
  /\ State.zoneData (Page.state pg') = State.zoneData (Page.state pg)
  /\ State.loading (Page.state pg') = false
  /\ Page.error pg'
     = Some ("Failed to load buildings for zone: " ++ message)
  /\ ThreeMap.createBuildings (State.buildings (Page.state pg'))
       (State.highlightedBuildings (Page.state pg')) group = group.
Proof.
  intros Hz Hf pg'. subst pg'. unfold Page.handleZoneSelect.
  rewrite Hz, Hf. repeat split.
Qed.

Lemma failed_zone_load_keeps_old_zone_witness :
  let pg' :=
    Page.handleZoneSelect serviceDown (Some "east-village") None pageAfterQuery in
  State.selectedZone (Page.state pageAfterQuery) = Some "beltline"
  /\ State.selectedZone (Page.state pg') = Some "beltline"
  /\ State.buildings (Page.state pg') = []
  /\ Page.error pg'
     = Some "Failed to load buildings for zone: Network Error".
Proof.
  intros pg'.
  destruct (failed_zone_load_keeps_old_zone serviceDown "east-village"
              "Network Error" None pageAfterQuery [] eq_refl eq_refl)
    as (Hb & Hz & _ & _ & He & _).
  split; [reflexivity |]. split; [exact Hz |]. split; [exact Hb | exact He].
Defined.

(** X14: submitting a query is idempotent: a second submit of the same text
    over the same buildings changes nothing. *)
Theorem query_submit_idempotent (st : State.t) :
  handleQuerySubmit (handleQuerySubmit st) = handleQuerySubmit st.
Proof.
  unfold handleQuerySubmit at 2.
  destruct (isEmpty (trim (State.queryText st))) eqn:Hb.
  - unfold handleQuerySubmit. now rewrite Hb.
  - destruct (interpret _ _) as [fb fl] eqn:E.
    unfold handleQuerySubmit. cbn [State.queryText State.setLoading
      State.setInterpretedFilter State.setHighlightedBuildings State.buildings].
    rewrite Hb, E. reflexivity.
Qed.

(** *** The 3D map *)

Lemma Math_max_20 (x : Q) : x <= 20 -> Math_max x 20 = 20.
Proof.
  intros H. unfold Math_max. apply Qle_bool_iff in H. now rewrite H.
Qed.

Lemma Math_min_le (x y : Q) : Math_min x y <= x /\ Math_min x y <= y.
Proof.
  unfold Math_min. destruct (Qle_bool x y) eqn:E.
  - apply Qle_bool_iff in E. split; [apply Qle_refl | exact E].
  - split; [| apply Qle_refl].
    apply Qlt_le_weak, Qnot_le_lt. intros H.
    apply Qle_bool_iff in H. congruence.
Qed.

Lemma Math_max_ge (x y : Q) : x <= Math_max x y /\ y <= Math_max x y.
Proof.
  unfold Math_max. destruct (Qle_bool x y) eqn:E.
  - apply Qle_bool_iff in E. split; [exact E | apply Qle_refl].
  - split; [apply Qle_refl |].
    apply Qlt_le_weak, Qnot_le_lt. intros H.
    apply Qle_bool_iff in H. congruence.
Qed.

(** X15: every building is drawn with a height between 20 and 50; a
    building without a usable [height_m], or with one of at most 200 meters,
    is drawn exactly 20 high, and one of 500 meters or more exactly 50
    high. *)
Theorem drawn_height_range (b : Building.t) :
  20 <= ThreeMap.buildingHeight b
  /\ ThreeMap.buildingHeight b <= 50
  /\ (truthyNum (Building.prop Properties.height_m b) = false ->
      ThreeMap.buildingHeight b == 20)
  /\ (forall h, Building.prop Properties.height_m b = Some h ->
                h <= 200 -> ThreeMap.buildingHeight b == 20)
  /\ (forall h, Building.prop Properties.height_m b = Some h ->
                500 <= h -> ThreeMap.buildingHeight b == 50).
Proof.
  unfold ThreeMap.buildingHeight, ThreeMap.scaledHeight.
  set (m := if truthyNum (Building.prop Properties.height_m b)
            then match Building.prop Properties.height_m b with
                 | Some h => h
                 | None => 10
                 end
            else 10).
  split; [apply Math_max_ge |]. split.
  - unfold Math_max. destruct (Qle_bool _ 20); [discriminate |].
    apply Math_min_le.
  - split; [| split].
    + intros Hf. subst m. rewrite Hf. reflexivity.
    + intros h Hh Hle. rewrite Math_max_20; [reflexivity |].
      apply Qle_trans with (m * 0.1); [apply Math_min_le |].
      subst m. rewrite Hh.
      destruct (truthyNum (Some h)); lra.
    + intros h Hh Hge.
      assert (Hm : m = h).
      { subst m. rewrite Hh. simpl.
        destruct (Qeq_bool h 0) eqn:E; [| reflexivity].
        apply Qeq_bool_iff in E. lra. }
      rewrite Hm. unfold Math_min, Math_max.
      destruct (Qle_bool (h * 0.1) 50) eqn:E.
      * apply Qle_bool_iff in E.
        destruct (Qle_bool (h * 0.1) 20) eqn:E2;
          [apply Qle_bool_iff in E2 |]; lra.
      * reflexivity.
Qed.

Lemma drawn_height_range_witness :
  ThreeMap.buildingHeight shed == 20
  /\ ThreeMap.buildingHeight tower == 20
  /\ ThreeMap.buildingHeight (withHeightM "spire" 828) == 50
  /\ ThreeMap.buildingHeight (withHeightM "mast" 300) == 30.
Proof.
  split; [apply (drawn_height_range shed); reflexivity |].
  split.
  { destruct (drawn_height_range tower) as (_ & _ & _ & H & _).
    apply (H 120); [reflexivity | discriminate]. }
  split.
  { destruct (drawn_height_range (withHeightM "spire" 828))
      as (_ & _ & _ & _ & H).
    apply (H 828); [reflexivity | discriminate]. }
  reflexivity.
Defined.

Lemma same_id_same_building (buildings : list Building.t)
      (a b : Building.t) :
  NoDup (map Building.id buildings) ->
  In a buildings -> In b buildings -> Building.id a = Building.id b -> a = b.
Proof.
  induction buildings as [| c l IH]; simpl; intros Hnd Ha Hb Hid;
    [contradiction |].
  inversion Hnd as [| ? ? Hnot Hnd']; subst.
  destruct Ha as [-> | Ha], Hb as [-> | Hb].
  - reflexivity.
  - exfalso. apply Hnot. rewrite Hid. now apply in_map.
  - exfalso. apply Hnot. rewrite <- Hid. now apply in_map.
  - now apply IH.
Qed.

(** X16: when the loaded buildings have distinct ids and the highlighted
    list is drawn from them, the map colours a loaded building red exactly
    when it is in the highlighted list, and blue otherwise. *)
Theorem map_colours_the_highlighted
        (buildings highlightedBuildings : list Building.t)
        (index : nat) (b : Building.t) :
  NoDup (map Building.id buildings) ->
  incl highlightedBuildings buildings ->
  In b buildings ->
  (ThreeMap.isHighlighted highlightedBuildings b = true
   <-> In b highlightedBuildings)
  /\ (ThreeMap.color (ThreeMap.createMesh highlightedBuildings index b)
      = "#ff6b6b" <-> In b highlightedBuildings)
  /\ (ThreeMap.color (ThreeMap.createMesh highlightedBuildings index b)
      = "#4A90E2" <-> ~ In b highlightedBuildings).
Proof.
  intros Hnd Hincl Hb.
  assert (Hiff : ThreeMap.isHighlighted highlightedBuildings b = true
                 <-> In b highlightedBuildings).
  { unfold ThreeMap.isHighlighted. rewrite existsb_exists. split.
    - intros (hb & Hin & Heq). apply String.eqb_eq in Heq.
      rewrite <- (same_id_same_building buildings hb b Hnd
                    (Hincl hb Hin) Hb Heq).
      exact Hin.
    - intros Hin. exists b. split; [exact Hin | apply String.eqb_refl]. }
  split; [exact Hiff |].
  cbn [ThreeMap.createMesh ThreeMap.color]. unfold apiUtils.getBuildingColor.
  destruct (ThreeMap.isHighlighted highlightedBuildings b).
  - assert (Hin : In b highlightedBuildings) by now apply Hiff.
    split; split; intros H;
      first [reflexivity | exact Hin | discriminate H | contradiction].
  - assert (Hnin : ~ In b highlightedBuildings)
      by (intros H; apply Hiff in H; discriminate H).
    split; split; intros H;
      first [reflexivity | exact Hnin | discriminate H | contradiction].
Qed.

Lemma map_colours_the_highlighted_witness :
  let buildings := [shed; tower; condoBlock] in
  let highlighted :=
    State.highlightedBuildings
      (handleQuerySubmit (dashboardWith buildings "tall buildings")) in
  ThreeMap.color (ThreeMap.createMesh highlighted 1 tower) = "#ff6b6b"
  /\ ThreeMap.color (ThreeMap.createMesh highlighted 0 shed) = "#4A90E2".
Proof.
  intros buildings highlighted.
  assert (Hnd : NoDup (map Building.id buildings)).
  { repeat constructor; simpl; intros H;
      repeat (destruct H as [H | H]; [discriminate H |]); exact H. }
  assert (Hincl : incl highlighted buildings).
  { intros b [<- | []]. right. left. reflexivity. }
  split.
  - apply (map_colours_the_highlighted buildings highlighted 1 tower
             Hnd Hincl).
    + right. left. reflexivity.
    + left. reflexivity.
  - apply (map_colours_the_highlighted buildings highlighted 0 shed
             Hnd Hincl).
    + left. reflexivity.
    + intros [H | []]. discriminate H.
Defined.

Lemma createFrom_buildings (highlightedBuildings buildings : list Building.t) :
  forall index,
    map ThreeMap.building
      (ThreeMap.createFrom highlightedBuildings index buildings)
    = buildings.
Proof.
  induction buildings as [| b l IH]; intros index; simpl;
    [reflexivity | now rewrite IH].
Qed.

Lemma createFrom_nth (highlightedBuildings buildings : list Building.t) :
  forall start i m,
    nth_error (ThreeMap.createFrom highlightedBuildings start buildings) i
    = Some m ->
    exists b, nth_error buildings i = Some b
              /\ m = ThreeMap.createMesh highlightedBuildings (start + i) b.
Proof.
  induction buildings as [| b l IH]; intros start i m H.
  - destruct i; discriminate H.
  - destruct i as [| i]; simpl in H.
    + injection H as <-. exists b. now rewrite Nat.add_0_r.
    + apply IH in H. destruct H as (b' & Hb & ->).
      exists b'. split; [exact Hb |]. f_equal. lia.
Qed.

Lemma position_cell (i j : nat) :
  ThreeMap.positionX i == ThreeMap.positionX j ->
  ThreeMap.positionZ i == ThreeMap.positionZ j -> i = j.
Proof.
  unfold ThreeMap.positionX, ThreeMap.positionZ, ThreeMap.col, ThreeMap.row.
  intros Hx Hz.
  assert (Hc : inject_Z (Z.of_nat (i mod 6)) == inject_Z (Z.of_nat (j mod 6)))
    by lra.
  assert (Hr : inject_Z (Z.of_nat (i / 6)) == inject_Z (Z.of_nat (j / 6)))
    by lra.
  apply (proj1 (inject_Z_injective _ _)) in Hc.
  apply (proj1 (inject_Z_injective _ _)) in Hr.
  apply Nat2Z.inj in Hc, Hr.
  rewrite (Nat.div_mod_eq i 6), (Nat.div_mod_eq j 6). now rewrite Hc, Hr.
Qed.

(** X17: for a non-empty building list the map holds one mesh per building,
    in the buildings' order, each standing on the ground (its centre is at
    half its height), and no two meshes share a grid position; the columns
    lie between -300 and 300. *)
Theorem one_mesh_per_building_on_a_grid
        (buildings highlightedBuildings : list Building.t)
        (group : list ThreeMap.mesh) :
  buildings <> [] ->
  let meshes :=
    ThreeMap.createBuildings buildings highlightedBuildings group in
  map ThreeMap.building meshes = buildings
  /\ (forall m, In m meshes ->
        ThreeMap.y m = ThreeMap.height m / 2
        /\ -300 <= ThreeMap.x m /\ ThreeMap.x m <= 300)
  /\ (forall i j mi mj,
        nth_error meshes i = Some mi -> nth_error meshes j = Some mj ->
        ThreeMap.x mi == ThreeMap.x mj -> ThreeMap.z mi == ThreeMap.z mj ->
        i = j).
Proof.
  intros Hne meshes.
  assert (E : meshes = ThreeMap.createFrom highlightedBuildings 0 buildings)
    by (subst meshes; destruct buildings; [contradiction | reflexivity]).
  rewrite E. split; [apply createFrom_buildings |]. split.
  - intros m Hm. apply In_nth_error in Hm. destruct Hm as [i Hi].
    apply createFrom_nth in Hi. destruct Hi as (b & _ & ->).
    cbn [ThreeMap.createMesh ThreeMap.y ThreeMap.height ThreeMap.x].
    split; [reflexivity |].
    unfold ThreeMap.positionX, ThreeMap.col.
    pose proof (Nat.mod_upper_bound (0 + i) 6 ltac:(lia)) as Hlt.
    assert (H0 : 0 <= inject_Z (Z.of_nat ((0 + i) mod 6)))
      by (apply inject_Z_nonneg; lia).
    assert (H5 : inject_Z (Z.of_nat ((0 + i) mod 6)) <= 5).
    { change 5 with (inject_Z 5). rewrite <- Zle_Qle. lia. }
    split; lra.
  - intros i j mi mj Hi Hj Hx Hz.
    apply createFrom_nth in Hi, Hj.
    destruct Hi as (bi & _ & ->), Hj as (bj & _ & ->).
    cbn [ThreeMap.createMesh ThreeMap.x ThreeMap.z] in Hx, Hz.
    now apply (position_cell (0 + i) (0 + j)).
Qed.

Lemma one_mesh_per_building_on_a_grid_witness :
  map ThreeMap.building (ThreeMap.createBuildings [tower; shed] [tower] [])
  = [tower; shed]
  /\ ThreeMap.createBuildings [] [tower]
       (ThreeMap.createBuildings [tower; shed] [tower] [])
     = ThreeMap.createBuildings [tower; shed] [tower] [].
Proof.
  split; [| reflexivity].
  refine (proj1 (one_mesh_per_building_on_a_grid [tower; shed] [tower] [] _)).
  intros H. discriminate H.
Defined.

(** *** The earlier query handler *)

(** X18: in the earlier dashboard, a non-blank query that contains [tall] or
    [height] stores the filter [height_m > 50] and highlights the buildings
    with a non-zero [height_m] above 50; the restore path of the current
    dashboard, given that filter, selects exactly those buildings. *)
Theorem legacy_highlight_is_what_restore_selects
        (StringToNumber : string -> jsnum) (st : State.t) :
  isEmpty (trim (State.queryText st)) = false ->
  includes (toLowerCase (State.queryText st)) "tall"
  || includes (toLowerCase (State.queryText st)) "height" = true ->
  let queried := Legacy.handleQuerySubmit st in
  State.interpretedFilter queried = Some Legacy.tallFilter
  /\ (forall b, In b (State.highlightedBuildings queried) <->
                In b (State.buildings st)
                /\ exists h, Building.prop Properties.height_m b = Some h
                             /\ 50 < h)
  /\ applySavedFilter StringToNumber Legacy.tallFilter (State.buildings st)
     = Some (State.highlightedBuildings queried).
Proof.
  intros Hnb Hkw queried.
  assert (E : queried
              = State.setLoading false
                  (State.setInterpretedFilter (Some Legacy.tallFilter)
                     (State.setHighlightedBuildings
                        (filter Legacy.tallerThan50 (State.buildings st))
                        (State.setLoading true st))))
    by (unfold queried, Legacy.handleQuerySubmit; now rewrite Hnb, Hkw).
  rewrite E. cbn [State.interpretedFilter State.highlightedBuildings
                    State.setLoading State.setInterpretedFilter
                    State.setHighlightedBuildings].
  split; [reflexivity |]. split.
  - intros b. rewrite filter_In. unfold Legacy.tallerThan50.
    split; intros [Hin H]; (split; [exact Hin |]).
    + destruct (Building.prop Properties.height_m b) as [h |];
        [| now rewrite andb_false_r in H].
      apply andb_true_iff in H. destruct H as [_ H].
      exists h. split; [reflexivity | now apply Qltb_lt].
    + destruct H as (h & -> & Hh).
      apply andb_true_iff. split; [| now apply Qltb_lt].
      simpl. destruct (Qeq_bool h 0) eqn:Hz; [| reflexivity].
      apply Qeq_bool_iff in Hz. lra.
  - unfold applySavedFilter. cbn. f_equal.
Qed.

Lemma legacy_highlight_is_what_restore_selects_witness :
  let st := dashboardWith [shed; tower; eightyFeet] "How tall?" in
  State.highlightedBuildings (Legacy.handleQuerySubmit st) = [tower]
  /\ applySavedFilter noNumber Legacy.tallFilter (State.buildings st)
     = Some [tower].
Proof.
  intros st. split; [reflexivity |].
  exact (proj2 (proj2 (legacy_highlight_is_what_restore_selects
                         noNumber st eq_refl eq_refl))).
Defined.
